(** * EX-Installer: worker tasks, task queues, exclusive gates and the poller

    A shallow embedding of the background-task core of EX-Installer:
    - [ThreadedArduinoCLI] and [ArduinoCLI]   (ex_installer/arduino_cli.py),
    - [ThreadedGitClient]                     (ex_installer/git_client.py),
    - [WindowLayout.monitor_queue]            (ex_installer/common_widgets.py).

    A worker's [run] is a computation in a small trace/state/exception monad:
    it emits the events the thread performs (queue puts, lock operations, the
    external call) in program order and ends normally or with an escaping
    Python exception.  What the outside world answers (the outcome of the
    subprocess, the clock, [json.loads], [repr]) is an input of the model. *)

From stdpp Require Import gmap strings list pretty functions.
From Stdlib Require Import ZArith SpecFloat Ascii.

#[local] Set Warnings "-register-all".
#[local] Open Scope Z_scope.

(** ** Python values and the built-in operations the code applies to them *)

Module Py.

(** Values the workers handle: what [json.loads] returns (None, bool, int,
    float, str, list, dict), tuples (exception arguments) and opaque objects
    without a container protocol (for instance a pygit2 Repository). *)
Inductive pyval : Type :=
| PNone
| PBool (b : bool)
| PInt (z : Z)
| PFloat (f : spec_float)
| PStr (s : string)
| PList (l : list pyval)
| PTuple (l : list pyval)
| PDict (d : gmap string pyval)
| PObject (type_name : string) (ident : Z).

(** A raised exception: its class name, its [args], what [str()] gives, and
    whether the class derives from [Exception] (so that [except Exception]
    catches it) or only from [BaseException]. *)
Record pyexc : Type := PyExc {
  exc_type : string;
  exc_args : list pyval;
  exc_str : string;
  exc_is_Exception : bool
}.

Definition mk_exc (ty msg : string) : pyexc :=
  PyExc ty [PStr msg] msg true.

Definition TypeError (msg : string) : pyexc := mk_exc "TypeError" msg.
Definition AttributeError (cls attr : string) : pyexc :=
  mk_exc "AttributeError"
    ("'" +:+ cls +:+ "' object has no attribute '" +:+ attr +:+ "'").
(** [str(KeyError(k))] is the repr of the key. *)
Definition KeyError (k : string) : pyexc :=
  PyExc "KeyError" [PStr k] ("'" +:+ k +:+ "'") true.

Definition type_name (v : pyval) : string :=
  match v with
  | PNone => "NoneType"
  | PBool _ => "bool"
  | PInt _ => "int"
  | PFloat _ => "float"
  | PStr _ => "str"
  | PList _ => "list"
  | PTuple _ => "tuple"
  | PDict _ => "dict"
  | PObject n _ => n
  end.

(** [bytes] as the subprocess pipes deliver them. *)
Definition bytes : Type := list Byte.byte.

(** Truth value of a bytes object: non-empty. *)
Definition bytes_truthy (b : bytes) : bool :=
  match b with [] => false | _ :: _ => true end.

(** [needle in hay] on two strs: substring test. *)
Fixpoint str_contains (needle hay : string) : bool :=
  String.prefix needle hay ||
  match hay with
  | EmptyString => false
  | String _ hay' => str_contains needle hay'
  end.

Definition is_str (k : string) (v : pyval) : bool :=
  match v with
  | PStr s => bool_decide (s = k)
  | _ => false
  end.

(** [k in v] for a str [k]: key test on a dict, element test on a list or
    tuple, substring test on a str, TypeError elsewhere. *)
Definition py_contains (k : string) (v : pyval) : pyexc + bool :=
  match v with
  | PDict d => inr (bool_decide (is_Some (d !! k)))
  | PList l | PTuple l => inr (existsb (is_str k) l)
  | PStr s => inr (str_contains k s)
  | _ => inl (TypeError ("argument of type '" +:+ type_name v +:+ "' is not iterable"))
  end.

(** [v[k]] for a str [k]: lookup in a dict (KeyError when absent),
    TypeError elsewhere. *)
Definition py_getitem (v : pyval) (k : string) : pyexc + pyval :=
  match v with
  | PDict d =>
      match d !! k with
      | Some x => inr x
      | None => inl (KeyError k)
      end
  | PStr _ => inl (TypeError "string indices must be integers, not 'str'")
  | PList _ => inl (TypeError "list indices must be integers or slices, not str")
  | PTuple _ => inl (TypeError "tuple indices must be integers or slices, not str")
  | _ => inl (TypeError ("'" +:+ type_name v +:+ "' object is not subscriptable"))
  end.

(** [v != ""]. *)
Definition py_ne_empty (v : pyval) : bool :=
  match v with
  | PStr EmptyString => false
  | _ => true
  end.

(** [v + s] for a str [s]: concatenation on a str, TypeError elsewhere. *)
Definition py_add_str (v : pyval) (s : string) : pyexc + pyval :=
  match v with
  | PStr a => inr (PStr (a +:+ s))
  | _ => inl (TypeError ("unsupported operand type(s) for +: '" +:+ type_name v
                          +:+ "' and 'str'"))
  end.

(** [v is True]. *)
Definition py_is_True (v : pyval) : bool :=
  match v with
  | PBool true => true
  | _ => false
  end.

(** ** datetime.timedelta, as far as the time limit needs it *)

Record timedelta : Type := Timedelta {
  days : Z;
  seconds : Z;
  microseconds : Z
}.

Definition OverflowError (msg : string) : pyexc := mk_exc "OverflowError" msg.

(** [timedelta(seconds=s)] for an int [s]: normalised to days and
    0 <= seconds < 86400; more than 999999999 days overflow. *)
Definition timedelta_of_seconds (s : Z) : pyexc + timedelta :=
  let d := s `div` 86400 in
  if Z.abs d >? 999999999
  then inl (OverflowError ("days=" +:+ pretty d +:+ "; must have magnitude <= 999999999"))
  else inr (Timedelta d (s `mod` 86400) 0).

(** [a > b] on timedeltas compares (days, seconds, microseconds)
    lexicographically. *)
Definition timedelta_gt (a b : timedelta) : bool :=
  (days a >? days b) ||
  ((days a =? days b) &&
   ((seconds a >? seconds b) ||
    ((seconds a =? seconds b) && (microseconds a >? microseconds b)))).

Definition pad (width : nat) (s : string) : string :=
  String.concat "" (replicate (width - String.length s) "0") +:+ s.

(** [str(timedelta)]: "H:MM:SS", preceded by "D day(s), " when days is not
    zero and followed by ".ffffff" when microseconds is not zero. *)
Definition timedelta_str (t : timedelta) : string :=
  let mm := seconds t `div` 60 in
  let ss := seconds t `mod` 60 in
  let hh := mm `div` 60 in
  let mm := mm `mod` 60 in
  let s := pretty hh +:+ ":" +:+ pad 2 (pretty mm) +:+ ":" +:+ pad 2 (pretty ss) in
  let s :=
    if days t =? 0 then s
    else pretty (days t) +:+ " day" +:+ (if Z.abs (days t) =? 1 then "" else "s")
         +:+ ", " +:+ s in
  if microseconds t =? 0 then s
  else s +:+ "." +:+ pad 6 (pretty (microseconds t)).

End Py.
Export Py.

(** ** Messages, gates and the events of a worker thread *)

(** [QueueMessage = namedtuple("QueueMessage", ["status", "topic", "data"])] *)
Record QueueMessage : Type := mkQueueMessage {
  status : string;
  topic : pyval;
  data : pyval
}.

(** A terminal Message has status "success" or "error". *)
Definition is_terminal (m : QueueMessage) : bool :=
  bool_decide (status m = "success") || bool_decide (status m = "error").

(** The class-level locks: [ThreadedArduinoCLI.arduino_cli_lock] and
    [ThreadedGitClient.api_lock]. Each is created once, when its class body
    runs, and shared by every instance. *)
Inductive gate : Type := arduino_cli_lock | api_lock.

#[global] Instance gate_eq_dec : EqDecision gate.
Proof. solve_decision. Defined.

(** What a worker thread does, in program order. The external call (the
    subprocess from Popen to the return of communicate, or the pygit2 task)
    has a beginning and an end. *)
Inductive event : Type :=
| Put (m : QueueMessage)
| Acquire (g : gate)
| Release (g : gate)
| CallBegin (g : gate)
| CallEnd (g : gate)
| Terminate.

(** Messages put on the queue by a trace, in order. *)
Fixpoint puts (tr : list event) : list QueueMessage :=
  match tr with
  | [] => []
  | Put m :: tr' => m :: puts tr'
  | _ :: tr' => puts tr'
  end.

Definition terminal_puts (tr : list event) : list QueueMessage :=
  filter (λ m, is_terminal m = true) (puts tr).

(** ** The monad of worker code: trace, attribute state, exceptions *)

Module Worker.
Section monad.
Context {S : Type}.

(** A computation starts from the attributes [S] of the thread object and
    gives the events emitted, the attributes afterwards and either a result
    or the exception that propagates. *)
Definition M (A : Type) : Type := S → list event * S * (pyexc + A).

Definition ret {A} (a : A) : M A := λ s, ([], s, inr a).

Definition bind {A B} (m : M A) (f : A → M B) : M B := λ s,
  let '(t1, s1, r) := m s in
  match r with
  | inl e => (t1, s1, inl e)
  | inr a => let '(t2, s2, r2) := f a s1 in (t1 ++ t2, s2, r2)
  end.

Definition raise {A} (e : pyexc) : M A := λ s, ([], s, inl e).

Definition emit (ev : event) : M unit := λ s, ([ev], s, inr tt).

Definition get : M S := λ s, ([], s, inr s).

Definition modify (f : S → S) : M unit := λ s, ([], f s, inr tt).

(** A pure computation that may raise. *)
Definition lift {A} (r : pyexc + A) : M A := λ s, ([], s, r).

(** [try: m  except Exception as error: h error] *)
Definition try_except {A} (m : M A) (h : pyexc → M A) : M A := λ s,
  let '(t1, s1, r) := m s in
  match r with
  | inl e =>
      if exc_is_Exception e
      then let '(t2, s2, r2) := h e s1 in (t1 ++ t2, s2, r2)
      else (t1, s1, inl e)
  | inr a => (t1, s1, inr a)
  end.

(** [with g: m] -- the lock is released on the way out, also when an
    exception propagates. *)
Definition with_lock {A} (g : gate) (m : M A) : M A := λ s,
  let '(t, s1, r) := m s in (Acquire g :: t ++ [Release g], s1, r).

End monad.
Arguments M : clear implicits.

#[global] Instance M_ret {S} : MRet (M S) := @ret S.
#[global] Instance M_bind {S} : MBind (M S) := λ A B f m, bind m f.

(** Pure computations that may raise. *)
#[global] Instance exc_ret : MRet (sum pyexc) := λ A a, inr a.
#[global] Instance exc_bind : MBind (sum pyexc) := λ A B f m,
  match m with
  | inl e => inl e
  | inr a => f a
  end.

End Worker.
Import Worker.

(** ** ex_installer/arduino_cli.py *)

(** The line feed, written "\n" in the source. *)
Definition nl : string :=
  String (Ascii.Ascii false true false true false false false false) EmptyString.

(** [str(v)]: a str is itself, the other values print as their [repr]. *)
Definition py_str (repr : pyval → string) (v : pyval) : string :=
  match v with
  | PStr s => s
  | _ => repr v
  end.

Module ThreadedArduinoCLI.
Section runtime.
(** Python's built-in [repr], and [json.loads(b.decode())] on the bytes of a
    pipe, which returns the decoded value or raises (UnicodeDecodeError,
    json.JSONDecodeError). *)
Variable repr : pyval → string.
Variable loads : bytes → pyexc + pyval.

(** [get_exception(error)] *)
Definition get_exception (error : pyexc) : string :=
  "An exception of type " +:+ exc_type error +:+ " occurred. Arguments:" +:+ nl
    +:+ repr (PTuple (exc_args error)).

(** The attributes set by [__init__]. *)
Record t : Type := mk {
  params : list string;
  process_params : list string;
  time_limit : option timedelta
}.

(** [__init__(self, acli_path, params, queue, time_limit=300)] with an
    int [time_limit]. The queue is the trace of [Put] events. *)
Definition __init__ (acli_path : string) (params : list string)
    (time_limit : option Z) : pyexc + t :=
  let time_limit := default 300 time_limit in
  limit ← timedelta_of_seconds time_limit;
  mret (mk params ([acli_path] ++ params) (Some limit)).

(** [subprocess.Popen] object: [returncode] is None until the process has
    been waited for. *)
Record Popen : Type := mkPopen { returncode : option Z }.

(** The attributes [run] sets: unset (None here) until assigned. *)
Record attrs : Type := mkAttrs {
  process : option Popen;
  output : option bytes;
  error : option bytes
}.

Definition unset : attrs := mkAttrs None None None.

(** What the external call does: Popen raises, and [self.process] is never
    assigned; or communicate raises, with the process object in place and its
    [returncode] as it is then; or communicate returns the two streams of a
    subprocess that has exited with [rc]. *)
Inductive call_outcome : Type :=
| PopenRaises (e : pyexc)
| CommunicateRaises (rc : option Z) (e : pyexc)
| Completed (out err : bytes) (rc : Z).

Definition getattr {A} (name : string) (proj : attrs → option A) : M attrs A :=
  s ← get;
  match proj s with
  | Some a => mret a
  | None => raise (AttributeError "ThreadedArduinoCLI" name)
  end.

(** Lines 104-111: Popen and communicate, assigning [self.process], then
    [self.output] and [self.error]. *)
Definition popen_communicate (oc : call_outcome) : M attrs unit :=
  emit (CallBegin arduino_cli_lock);;
  match oc with
  | PopenRaises e =>
      emit (CallEnd arduino_cli_lock);; raise e
  | CommunicateRaises rc e =>
      modify (λ s, mkAttrs (Some (mkPopen rc)) (output s) (error s));;
      emit (CallEnd arduino_cli_lock);; raise e
  | Completed out err rc =>
      modify (λ s, mkAttrs (Some (mkPopen (Some rc))) (output s) (error s));;
      modify (λ s, mkAttrs (process s) (Some out) (Some err));;
      emit (CallEnd arduino_cli_lock)
  end.

(** Lines 130-144: topic and data from the decoded error stream. *)
Definition classify_error (error : pyval) : pyexc + (pyval * pyval) :=
  let topic := "Error in compile or upload" in
  let data := "" in
  has_error ← py_contains "error" error;
  '(topic, data) ←
    (if has_error : bool
     then e ← py_getitem error "error"; mret (py_str repr e, py_str repr e)
     else mret (topic, data));
  has_output ← py_contains "output" error;
  data ←
    (if has_output : bool
     then
       o ← py_getitem error "output";
       has_stdout ← py_contains "stdout" o;
       data ←
         (if has_stdout : bool
          then
            so ← py_getitem o "stdout";
            if py_ne_empty so
            then x ← py_add_str so nl; mret (py_str repr x)
            else mret data
          else mret data);
       has_stderr ← py_contains "stderr" o;
       (if has_stderr : bool
        then
          se ← py_getitem o "stderr";
          if py_ne_empty se
          then mret (data +:+ py_str repr se)
          else mret data
        else mret data)
     else mret data);
  mret (PStr topic, if bool_decide (data = "") then error else PStr data).

(** Lines 147-160: topic and data from the decoded output stream. *)
Definition classify_output (details : pyval) : pyexc + (pyval * pyval) :=
  has_success ← py_contains "success" details;
  if has_success : bool
  then
    success ← py_getitem details "success";
    if py_is_True success
    then data ← py_getitem details "compiler_out"; mret (PStr "Success", data)
    else
      topic ← py_getitem details "error";
      data ← py_getitem details "compiler_err";
      mret (topic, data)
  else
    has_stdout ← py_contains "stdout" details;
    if has_stdout : bool
    then data ← py_getitem details "stdout"; mret (PStr "Success", data)
    else mret (PStr "Success", details).

(** Lines 127-163 once both streams are assigned: the whole classification. *)
Definition classify (err out : bytes) : pyexc + (pyval * pyval) :=
  if bytes_truthy err
  then error ← loads err; classify_error error
  else
    if bytes_truthy out
    then details ← loads out; classify_output details
    else mret (PStr "No output", PStr "No output").

(** Line 117: [self.time_limit is not None and (now - start_time) >
    self.time_limit]. *)
Definition timed_out (self : t) (elapsed : timedelta) : bool :=
  match time_limit self with
  | Some limit => timedelta_gt elapsed limit
  | None => false
  end.

Definition info_message (self : t) : QueueMessage :=
  mkQueueMessage "info" (PStr "Run Arduino CLI")
    (PStr ("Arduino CLI parameters: " +:+ repr (PList (PStr <$> params self)))).

Definition timeout_message (self : t) : QueueMessage :=
  mkQueueMessage "error"
    (PStr "The Arduino CLI command did not complete within the timeout period")
    (PStr ("The running Arduino CLI command took longer than "
           +:+ from_option timedelta_str "None" (time_limit self))).

(** [run(self)]: [oc] is what the external call does and [elapsed] is
    [datetime.now() - start_time] read at line 117. *)
Definition run (self : t) (oc : call_outcome) (elapsed : timedelta) : M attrs unit :=
  emit (Put (info_message self));;
  with_lock arduino_cli_lock (
    try_except (popen_communicate oc)
      (λ error, emit (Put (mkQueueMessage "error" (PStr (exc_str error))
                                                  (PStr (exc_str error)))));;
    if timed_out self elapsed
    then
      emit (Put (timeout_message self));;
      _ ← getattr "process" process;
      emit Terminate
    else
      err ← getattr "error" error;
    '(topic, data) ←
      (if bytes_truthy err
       then lift (error ← loads err; classify_error error)
       else
         out ← getattr "output" output;
         if bytes_truthy out
         then lift (details ← loads out; classify_output details)
         else mret (PStr "No output", PStr "No output"));
    p ← getattr "process" process;
      let status :=
        if bool_decide (returncode p = Some 0) then "success" else "error" in
      emit (Put (mkQueueMessage status topic data))).

(** The thread body run on a fresh object: trace and escaping exception. *)
Definition run_thread (self : t) (oc : call_outcome) (elapsed : timedelta)
    : list event * option pyexc :=
  let '(tr, _, r) := run self oc elapsed unset in
  (tr, match r with inl e => Some e | inr _ => None end).

End runtime.
End ThreadedArduinoCLI.

Module ArduinoCLI.

(** What [os.path.isfile] and [os.access(_, os.X_OK)] answer. *)
Record filesystem : Type := mkFs {
  isfile : string → bool;
  access_X_OK : string → bool
}.

(** What a method does on the calling thread: it puts a Message on the queue
    itself, or constructs a worker thread and starts it. *)
Inductive action : Type :=
| QueuePut (m : QueueMessage)
| ThreadStart (acli : ThreadedArduinoCLI.t).

(** [is_installed(self, file_path)] *)
Definition is_installed (fs : filesystem) (file_path : string) : bool :=
  if isfile fs file_path && access_X_OK fs file_path then true else false.

Definition not_installed : QueueMessage :=
  mkQueueMessage "error" (PStr "Arduino CLI is not installed")
                         (PStr "Arduino CLI is not installed").

(** [acli = ThreadedArduinoCLI(file_path, params, queue[, time_limit]);
    acli.start()] *)
Definition start (file_path : string) (params : list string)
    (time_limit : option Z) : pyexc + list action :=
  acli ← ThreadedArduinoCLI.__init__ file_path params time_limit;
  mret [ThreadStart acli].

(** [get_version(self, file_path, queue)] *)
Definition get_version (fs : filesystem) (file_path : string) : pyexc + list action :=
  if is_installed fs file_path
  then start file_path ["version"; "--format"; "jsonmini"] None
  else mret [QueuePut not_installed].

(** [get_platforms(self, file_path, queue)] *)
Definition get_platforms (fs : filesystem) (file_path : string) : pyexc + list action :=
  if is_installed fs file_path
  then start file_path ["core"; "list"; "--format"; "jsonmini"] None
  else mret [QueuePut not_installed].

(** [get_libraries(self, file_path, queue)] *)
Definition get_libraries (fs : filesystem) (file_path : string) : pyexc + list action :=
  if is_installed fs file_path
  then start file_path ["lib"; "list"; "--format"; "jsonmini"] None
  else mret [QueuePut not_installed].

(** [update_index(self, file_path, queue)] *)
Definition update_index (file_path : string) : pyexc + list action :=
  start file_path ["core"; "update-index"; "--format"; "jsonmini"] None.

(** [install_package(self, file_path, package, queue)] *)
Definition install_package (file_path package : string) : pyexc + list action :=
  start file_path ["core"; "install"; package; "--format"; "jsonmini"] (Some 600).

(** [upgrade_platforms(self, file_path, queue)] *)
Definition upgrade_platforms (file_path : string) : pyexc + list action :=
  start file_path ["core"; "upgrade"; "--format"; "jsonmini"] None.

(** [install_library(self, file_path, library, queue)] *)
Definition install_library (file_path library : string) : pyexc + list action :=
  start file_path ["lib"; "install"; library; "--format"; "jsonmini"] None.

(** [list_boards(self, file_path, queue)] *)
Definition list_boards (file_path : string) : pyexc + list action :=
  start file_path ["board"; "list"; "--format"; "jsonmini"] (Some 120).

(** [upload_sketch(self, file_path, fqbn, port, sketch_dir, queue)] *)
Definition upload_sketch (file_path fqbn port sketch_dir : string) : pyexc + list action :=
  let params :=
    ["upload"; "-v"; "-t"; "-b"; fqbn; "-p"; port; sketch_dir; "--format"; "jsonmini"] in
  let params :=
    if String.prefix "esp32:esp32" fqbn
    then params ++ ["--board-options"; "UploadSpeed=115200"]
    else params in
  start file_path params None.

(** [compile_sketch(self, file_path, fqbn, sketch_dir, queue)] *)
Definition compile_sketch (file_path fqbn sketch_dir : string) : pyexc + list action :=
  start file_path ["compile"; "-b"; fqbn; sketch_dir; "--format"; "jsonmini"] None.

End ArduinoCLI.

(** ** ex_installer/git_client.py *)

Module ThreadedGitClient.
Section runtime.
Variable repr : pyval → string.

(** [get_exception(error)]. The module-level function is wrapped in
    [staticmethod]; such a wrapper is callable from Python 3.10 on, which is
    what the model takes. *)
Definition get_exception (error : pyexc) : string :=
  "An exception of type " +:+ exc_type error +:+ " occurred. Arguments:" +:+ nl
    +:+ repr (PTuple (exc_args error)).

(** The attributes set by [__init__(self, task_name, task, queue, *args)]. *)
Record t : Type := mk {
  task_name : string;
  task : pyval;
  args : list pyval
}.

(** What the call of [self.task] on the unpacked [self.args] does. *)
Inductive task_outcome : Type :=
| Returns (output : pyval)
| Raises (e : pyexc).

Definition call_task (oc : task_outcome) : M unit pyval :=
  emit (CallBegin api_lock);;
  emit (CallEnd api_lock);;
  match oc with
  | Returns output => mret output
  | Raises e => raise e
  end.

Definition info_message (self : t) : QueueMessage :=
  mkQueueMessage "info" (PStr (task_name self))
    (PStr ("Run pygit2 task " +:+ py_str repr (task self) +:+ " with params "
           +:+ repr (PTuple (args self)))).

(** [run(self)] *)
Definition run (self : t) (oc : task_outcome) : M unit unit :=
  emit (Put (info_message self));;
  with_lock api_lock (
    try_except
      (output ← call_task oc;
       emit (Put (mkQueueMessage "success" (PStr (task_name self)) output)))
      (λ error,
         let message := get_exception error in
         emit (Put (mkQueueMessage "error" (PStr (task_name self)) (PStr message))))).

Definition run_thread (self : t) (oc : task_outcome) : list event * option pyexc :=
  let '(tr, _, r) := run self oc tt in
  (tr, match r with inl e => Some e | inr _ => None end).

End runtime.
End ThreadedGitClient.

(** ** ex_installer/common_widgets.py *)

Module WindowLayout.

(** The attributes of the view that [monitor_queue] touches, the virtual
    events generated so far (oldest first) and the timer callbacks pending
    in the Tk event loop: [(ms, event)] stands for
    [self.after(ms, self.monitor_queue, queue, event)]. *)
Record t : Type := mk {
  process_status : option string;
  process_topic : option pyval;
  process_data : option pyval;
  generated : list string;
  timers : list (Z * string)
}.

(** [__init__] leaves the three result attributes None. *)
Definition idle : t := mk None None None [] [].

Definition event_generate (sequence : string) (self : t) : t :=
  mk (process_status self) (process_topic self) (process_data self)
     (generated self ++ [sequence]) (timers self).

Definition after (ms : Z) (event : string) (self : t) : t :=
  mk (process_status self) (process_topic self) (process_data self)
     (generated self) (timers self ++ [(ms, event)]).

(** [monitor_queue(self, queue, event)]: one call. The queue is the list of
    Messages waiting, oldest first; the result is the view and what is left
    in the queue. *)
Fixpoint monitor_queue (self : t) (queue : list QueueMessage) (event : string)
    : t * list QueueMessage :=
  match queue with
  | [] => (after 100 event self, [])
  | item :: queue' =>
      if bool_decide (status item = "success") || bool_decide (status item = "error")
      then
        let self :=
          mk (Some (status item)) (Some (topic item)) (Some (data item))
             (generated self) (timers self) in
        (event_generate ("<<" +:+ event +:+ ">>") self, queue')
      else monitor_queue self queue' event
  end.

(** The event loop around it: when a pending timer fires, the callback runs on
    the queue as it is then. [arrivals] lists, for each firing, the Messages
    the workers have put since the previous call. *)
Fixpoint event_loop (self : t) (queue : list QueueMessage)
    (arrivals : list (list QueueMessage)) : t * list QueueMessage :=
  match arrivals with
  | [] => (self, queue)
  | batch :: arrivals' =>
      match timers self with
      | [] => event_loop self (queue ++ batch) arrivals'
      | (_, event) :: pending =>
          let self :=
            mk (process_status self) (process_topic self) (process_data self)
               (generated self) pending in
          let '(self, queue) := monitor_queue self (queue ++ batch) event in
          event_loop self queue arrivals'
      end
  end.

End WindowLayout.

(** ** Gates along a trace, and worker threads running side by side *)

(** Whether the thread holds gate [g] after performing the events of [tr]. *)
Definition holding (g : gate) (tr : list event) : bool :=
  fold_left
    (λ h e,
       match e with
       | Acquire g' => if decide (g' = g) then true else h
       | Release g' => if decide (g' = g) then false else h
       | _ => h
       end)
    tr false.

(** Whether the thread is inside its external call guarded by [g] after
    performing the events of [tr]: the call has begun and not yet ended. *)
Definition calling (g : gate) (tr : list event) : bool :=
  fold_left
    (λ c e,
       match e with
       | CallBegin g' => if decide (g' = g) then true else c
       | CallEnd g' => if decide (g' = g) then false else c
       | _ => c
       end)
    tr false.

(** Events that touch neither a gate nor the external call. *)
Definition quiet (e : event) : Prop :=
  match e with
  | Put _ | Terminate => True
  | _ => False
  end.

(** The lock discipline of a thread that has performed [done] and is about
    to perform [e]. *)
Definition permitted (done : list event) (e : event) : Prop :=
  match e with
  | Acquire g => holding g done = false
  | Release g => holding g done = true ∧ calling g done = false
  | CallBegin g => holding g done = true
  | CallEnd g => holding g done = true ∧ calling g done = true
  | _ => True
  end.

(** [P done e todo] at every event [e] of a trace, where [done] is what the
    thread has performed before [e] and [todo] what it performs after. *)
Fixpoint each_event (P : list event → event → list event → Prop)
    (done todo : list event) : Prop :=
  match todo with
  | [] => True
  | e :: todo' => P done e todo' ∧ each_event P (done ++ [e]) todo'
  end.

Definition disciplined (done todo : list event) : Prop :=
  each_event (λ done e _, permitted done e) done todo.

(** The gate an event names, if any. *)
Definition event_gate (e : event) : option gate :=
  match e with
  | Acquire g | Release g | CallBegin g | CallEnd g => Some g
  | Put _ | Terminate => None
  end.

Module Scheduler.

(** A worker thread: the events it has performed and those still ahead. *)
Record thread : Type := mkThread {
  done : list event;
  todo : list event
}.

(** The threads of the process and the state of the two locks. A
    [threading.Lock] is locked or unlocked; the state also remembers which
    thread locked it. *)
Record state : Type := mkState {
  pool : list thread;
  locks : gate → option nat
}.

Definition advance (th : thread) (e : event) (todo' : list event) : thread :=
  mkThread (done th ++ [e]) todo'.

(** One thread performs its next event. [acquire] blocks while the lock is
    locked; [release] unlocks a locked lock; nothing else waits. *)
Inductive step : state → state → Prop :=
| step_acquire σ i th g todo' :
    pool σ !! i = Some th →
    todo th = Acquire g :: todo' →
    locks σ g = None →
    step σ (mkState (<[i := advance th (Acquire g) todo']> (pool σ))
                    (<[g := Some i]> (locks σ)))
| step_release σ i th g todo' :
    pool σ !! i = Some th →
    todo th = Release g :: todo' →
    is_Some (locks σ g) →
    step σ (mkState (<[i := advance th (Release g) todo']> (pool σ))
                    (<[g := None]> (locks σ)))
| step_other σ i th e todo' :
    pool σ !! i = Some th →
    todo th = e :: todo' →
    (∀ g, e ≠ Acquire g ∧ e ≠ Release g) →
    step σ (mkState (<[i := advance th e todo']> (pool σ)) (locks σ)).

(** All threads created, none started, both locks unlocked. *)
Definition init (traces : list (list event)) : state :=
  mkState (mkThread [] <$> traces) (λ _, None).

Definition reachable (traces : list (list event)) (σ : state) : Prop :=
  rtc step (init traces) σ.

(** The traces worker threads run: those of [ThreadedArduinoCLI.run] and of
    [ThreadedGitClient.run], whatever the outside world answers. *)
Inductive worker_trace : list event → Prop :=
| cli_trace repr loads self oc elapsed :
    worker_trace (ThreadedArduinoCLI.run_thread repr loads self oc elapsed).1
| git_trace repr self oc :
    worker_trace (ThreadedGitClient.run_thread repr self oc).1.

(** What holds of every thread in every reachable state: it keeps the lock
    discipline, it is inside its external call only while it holds the gate,
    and it holds a gate exactly when the lock says so. *)
Definition inv (σ : state) : Prop :=
  ∀ i th, pool σ !! i = Some th →
    disciplined (done th) (todo th) ∧
    (∀ g, calling g (done th) = true → holding g (done th) = true) ∧
    (∀ g, holding g (done th) = true ↔ locks σ g = Some i).

(** The gate of each tool. *)
Inductive tool : Type := arduino_cli | pygit2.

Definition gate_of (t : tool) : gate :=
  match t with
  | arduino_cli => arduino_cli_lock
  | pygit2 => api_lock
  end.

End Scheduler.

(** ** Concrete inputs used in the examples *)

Module Examples.

(** A [repr] good enough for the values of the examples: strs without quotes
    or escapes, and lists and tuples of them. *)
Fixpoint repr (v : pyval) : string :=
  match v with
  | PNone => "None"
  | PBool true => "True"
  | PBool false => "False"
  | PInt z => pretty z
  | PStr s => "'" +:+ s +:+ "'"
  | PList l => "[" +:+ String.concat ", " (repr <$> l) +:+ "]"
  | PTuple [x] => "(" +:+ repr x +:+ ",)"
  | PTuple l => "(" +:+ String.concat ", " (repr <$> l) +:+ ")"
  | _ => "<object>"
  end.

Definition b (s : string) : bytes := String.list_byte_of_string s.

(** The structured error payload
    {"error": "bad board", "output": {"stderr": "detail"}}. *)
Definition bad_board : pyval :=
  PDict (<["error" := PStr "bad board"]>
         (<["output" := PDict (<["stderr" := PStr "detail"]> ∅)]> ∅)).

(** The double quote character. *)
Definition dq : string :=
  String (Ascii.Ascii false true false false false true false false) EmptyString.

(** The text of that payload as the pipe delivers it. *)
Definition bad_board_text : string :=
  String.concat dq
    ["{"; "error"; ": "; "bad board"; ", "; "output"; ": {"; "stderr"; ": "; "detail"; "}}"].

Definition JSONDecodeError : pyexc :=
  mk_exc "JSONDecodeError" "Expecting value: line 1 column 1 (char 0)".

(** A decoder for the examples: it decodes the one document above and raises
    on any other text, as [json.loads] does on text that is not JSON. *)
Definition loads (text : bytes) : pyexc + pyval :=
  if String.eqb (String.string_of_list_byte text) bad_board_text
  then inr bad_board
  else inl JSONDecodeError.

(** Popen on a path where there is no executable. *)
Definition FileNotFoundError : pyexc :=
  PyExc "FileNotFoundError" [PInt 2; PStr "No such file or directory"]
        "[Errno 2] No such file or directory: 'arduino-cli'" true.

(** [ThreadedArduinoCLI("arduino-cli", ["version", "--format", "jsonmini"],
    queue, time_limit)] *)
Definition acli (time_limit : Z) : ThreadedArduinoCLI.t :=
  ThreadedArduinoCLI.mk ["version"; "--format"; "jsonmini"]
    ["arduino-cli"; "version"; "--format"; "jsonmini"]
    (Some (Timedelta 0 time_limit 0)).

Definition half_second : timedelta := Timedelta 0 0 500000.

(** A view in the middle of polling and Messages for its queue. *)
Definition info : QueueMessage :=
  mkQueueMessage "info" (PStr "Run Arduino CLI") (PStr "Arduino CLI parameters: []").
Definition success : QueueMessage :=
  mkQueueMessage "success" (PStr "Success") (PStr "OK").

(** The view once [process_start] has called [monitor_queue] on an empty
    queue: the next call is scheduled. *)
Definition polling : WindowLayout.t :=
  (WindowLayout.monitor_queue WindowLayout.idle [] "arduino_cli").1.

(** Two CLI tasks started side by side, each on a subprocess that prints
    nothing and exits with 0, and the state of the pool when the first is
    inside its external call and the second has put its info Message. *)
Definition quiet_run : list event :=
  (ThreadedArduinoCLI.run_thread repr loads (acli 300)
     (ThreadedArduinoCLI.Completed [] [] 0) half_second).1.

Definition two_tasks : list (list event) := [quiet_run; quiet_run].

Definition first_in_call : Scheduler.state :=
  Scheduler.mkState
    [Scheduler.mkThread (take 3 quiet_run) (drop 3 quiet_run);
     Scheduler.mkThread (take 1 quiet_run) (drop 1 quiet_run)]
    (<[arduino_cli_lock := Some 0%nat]> (λ _, None)).

(** A file system without the CLI. *)
Definition no_cli : ArduinoCLI.filesystem :=
  ArduinoCLI.mkFs (λ _, false) (λ _, false).

End Examples.

(** * More of the code *)

(** ** Regular expressions, as far as [version_match] needs them *)

Module Re.

(** The patterns: the empty pattern, a literal character, [\d+], sequence,
    alternation [r1|r2] and a capturing group [(r)]. Strings are sequences of
    characters below 256, among which [\d] matches the ten ASCII digits. *)
Inductive regex : Type :=
| Eps
| Lit (c : ascii)
| Digits
| Seq (r1 r2 : regex)
| Alt (r1 r2 : regex)
| Group (r : regex).

Definition is_digit (c : ascii) : bool :=
  (48 <=? nat_of_ascii c)%nat && (nat_of_ascii c <=? 57)%nat.

(** The non-empty runs of digits at the start of [s], each with what follows
    it, the longest first: [\d+] is greedy and gives back one digit at a time. *)
Fixpoint digit_runs (s : string) : list (string * string) :=
  match s with
  | String c s' =>
      if is_digit c
      then (prod_map (String c) id <$> digit_runs s') ++ [(String c EmptyString, s')]
      else []
  | EmptyString => []
  end.

(** The ways [r] matches at the start of [s], in the order the backtracking
    matcher of [re] tries them: the text matched, the text left, and the groups
    captured, in the order of their opening parentheses. *)
Fixpoint matches (r : regex) (s : string) : list (string * string * list string) :=
  match r with
  | Eps => [(EmptyString, s, [])]
  | Lit c =>
      match s with
      | String c' s' => if decide (c' = c) then [(String c EmptyString, s', [])] else []
      | EmptyString => []
      end
  | Digits => (λ '(m, rest), (m, rest, [])) <$> digit_runs s
  | Seq r1 r2 =>
      '(m1, rest1, g1) ← matches r1 s;
      '(m2, rest2, g2) ← matches r2 rest1;
      [(m1 +:+ m2, rest2, g1 ++ g2)]
  | Alt r1 r2 => matches r1 s ++ matches r2 s
  | Group r => (λ '(m, rest, g), (m, rest, m :: g)) <$> matches r s
  end.

(** [re.search(r, s)]: the first match at the leftmost position that has one;
    the result lists group 0 (the whole match) and then the groups. *)
Fixpoint search (r : regex) (s : string) : option (list string) :=
  match matches r s with
  | (m, _, g) :: _ => Some (m :: g)
  | [] =>
      match s with
      | String _ s' => search r s'
      | EmptyString => None
      end
  end.

(** A literal word. *)
Fixpoint lits (s : string) : regex :=
  match s with
  | EmptyString => Eps
  | String c s' => Seq (Lit c) (lits s')
  end.

(** A non-empty str of digits. *)
Definition digits (s : string) : Prop :=
  s ≠ EmptyString ∧ Forall (λ c, is_digit c = true) (String.list_ascii_of_string s).

(** What a match of [r] looks like: the text matched and the groups. *)
Inductive denotes : regex → string → list string → Prop :=
| denotes_eps : denotes Eps EmptyString []
| denotes_lit c : denotes (Lit c) (String c EmptyString) []
| denotes_digits m :
    m ≠ EmptyString →
    Forall (λ c, is_digit c = true) (String.list_ascii_of_string m) →
    denotes Digits m []
| denotes_seq r1 r2 m1 m2 g1 g2 :
    denotes r1 m1 g1 → denotes r2 m2 g2 → denotes (Seq r1 r2) (m1 +:+ m2) (g1 ++ g2)
| denotes_alt_l r1 r2 m g : denotes r1 m g → denotes (Alt r1 r2) m g
| denotes_alt_r r1 r2 m g : denotes r2 m g → denotes (Alt r1 r2) m g
| denotes_group r m g : denotes r m g → denotes (Group r) m (m :: g).

End Re.

(** [int(s)] on a str of ASCII digits (the cap that recent Python versions
    put on the number of digits is not modelled). *)
Definition int_of_digits (s : string) : Z :=
  fold_left (λ acc c, 10 * acc + (Z.of_nat (nat_of_ascii c) - 48))
    (String.list_ascii_of_string s) 0.

(** A dict as the list of its items in insertion order: assigning to a key
    that is present replaces the value in place, assigning to a new key
    appends the item. *)
Fixpoint dict_set {V} (k : string) (v : V) (d : list (string * V)) : list (string * V) :=
  match d with
  | [] => [(k, v)]
  | (k', v') :: d' =>
      if decide (k' = k) then (k, v) :: d' else (k', v') :: dict_set k v d'
  end.

(** ** ex_installer/git_client.py: versions *)

Module GitClient.
Import Re.

(** [r"v(\d+)\.(\d+)\.(\d+)-(Prod|Devel)"] *)
Definition version_match : regex :=
  Seq (Lit "v")
   (Seq (Group Digits)
    (Seq (Lit ".")
     (Seq (Group Digits)
      (Seq (Lit ".")
       (Seq (Group Digits)
        (Seq (Lit "-")
         (Group (Alt (lits "Prod") (lits "Devel"))))))))).

(** A pygit2 reference, as far as the code reads it. *)
Record reference : Type := mkReference {
  shorthand : string;
  name : string
}.

(** The dict built for each version tag. *)
Record numbers : Type := mkNumbers {
  major : Z;
  minor : Z;
  patch : Z;
  type : string;
  ref : string
}.

(** The sort key [(t[1]["major"], t[1]["minor"], t[1]["patch"])]. *)
Definition version_key (t : string * numbers) : Z * Z * Z :=
  (major t.2, minor t.2, patch t.2).

(** [a < b] on tuples of three ints. *)
Definition key_lt (a b : Z * Z * Z) : bool :=
  let '(a1, a2, a3) := a in
  let '(b1, b2, b3) := b in
  (a1 <? b1) || ((a1 =? b1) && ((a2 <? b2) || ((a2 =? b2) && (a3 <? b3)))).

(** [sorted(items, key=version_key, reverse=True)]: the sort is stable, and
    stays so under [reverse]: items with equal keys keep their order. *)
Fixpoint insert_desc (x : string * numbers) (l : list (string * numbers))
    : list (string * numbers) :=
  match l with
  | [] => [x]
  | y :: l' =>
      if key_lt (version_key x) (version_key y)
      then y :: insert_desc x l'
      else x :: y :: l'
  end.

Definition sorted_reverse (items : list (string * numbers)) : list (string * numbers) :=
  foldr insert_desc [] items.

(** The order of the sorted items: the key of [a] is not less than the key
    of [b]. *)
Definition not_older (a b : string * numbers) : Prop :=
  key_lt (version_key a) (version_key b) = false.

(** Lines 262-268: the dict built for a reference whose shorthand holds a
    version, None for the others. *)
Definition numbers_of (r : reference) : option numbers :=
  match search version_match (shorthand r) with
  | Some [_; g1; g2; g3; g4] =>
      Some (mkNumbers (int_of_digits g1) (int_of_digits g2) (int_of_digits g3) g4 (name r))
  | _ => None
  end.

(** One turn of the loop of [get_repo_versions] over a reference: the two
    dicts [versions_unsorted] and [version_list] before and after. *)
Definition add_version (st : list (string * numbers) * list (string * numbers))
    (r : reference) : list (string * numbers) * list (string * numbers) :=
  let '(versions_unsorted, version_list) := st in
  match numbers_of r with
  | Some numbers =>
      let versions_unsorted := dict_set (shorthand r) numbers versions_unsorted in
      (versions_unsorted, sorted_reverse versions_unsorted)
  | None => (versions_unsorted, version_list)
  end.

(** [get_repo_versions(repo)], where [refs] is what
    [repo.references.iterator(2)] yields. The result is the dict in the order
    of its items. *)
Definition get_repo_versions (refs : list reference) : list (string * numbers) :=
  (fold_left add_version refs ([], [])).2.

(** [extract_version_details(version_string)] *)
Definition extract_version_details (version_string : string) : pyval :=
  match search version_match version_string with
  | Some [_; g1; g2; g3; _] =>
      PTuple [PInt (int_of_digits g1); PInt (int_of_digits g2); PInt (int_of_digits g3)]
  | _ => PTuple [PNone; PNone; PNone]
  end.

(** The loop of [get_latest_prod] and [get_latest_devel]: the first item of
    the given type. *)
Fixpoint first_of_type (ty : string) (version_list : list (string * numbers))
    : option (string * string) :=
  match version_list with
  | [] => None
  | (version, n) :: rest =>
      if decide (type n = ty) then Some (version, ref n) else first_of_type ty rest
  end.

(** [get_latest_prod(repo, tag_name="Prod")]; [tag_name] is not used. *)
Definition get_latest_prod (refs : list reference) (tag_name : string)
    : option (string * string) :=
  first_of_type "Prod" (get_repo_versions refs).

(** [get_latest_devel(repo, tag_name="Devel")]; [tag_name] is not used. *)
Definition get_latest_devel (refs : list reference) (tag_name : string)
    : option (string * string) :=
  first_of_type "Devel" (get_repo_versions refs).

End GitClient.


(** ** ex_installer/common_widgets.py: starting and stopping a process *)

Module Process.

(** A widget with its children ([winfo_children]), known by its identity;
    [is_input] says whether it is an instance of CTkButton, CTkComboBox,
    CTkCheckBox, CTkEntry, CTkRadioButton or CTkSwitch. *)
Inductive widget : Type :=
| Widget (ident : nat) (is_input : bool) (children : list widget).

(** The attributes of the view that starting and stopping a process touches:
    those of [monitor_queue], the phase, the running flag, the recorded widget
    states, the [state] option of every widget, the text and colour of the
    status label, whether the progress bar runs and whether the log button
    is shown. *)
Record t : Type := mk {
  layout : WindowLayout.t;
  process_phase : option string;
  process_running : bool;
  widget_states : list (nat * string);
  states : nat → string;
  status_label : pyval * string;
  progress_bar : bool;
  log_button : bool
}.

(** Lines 227-232: record the state of the input widget [ident], then
    disable it. *)
Definition visit (self : t) (ident : nat) : t :=
  mk (layout self) (process_phase self) (process_running self)
     (widget_states self ++ [(ident, states self ident)])
     (<[ident := "disabled"]> (states self))
     (status_label self) (progress_bar self) (log_button self).

(** Lines 225-232: the [isinstance] test around it. *)
Definition record_and_disable (child : widget) (self : t) : t :=
  match child with
  | Widget ident true _ => visit self ident
  | Widget _ false _ => self
  end.

(** [disable_input_states(self, widget)] *)
Fixpoint disable_input_states (widget : widget) (self : t) : t :=
  match widget with
  | Widget _ _ children =>
      (fix each (children : list Process.widget) (self : t) : t :=
         match children with
         | [] => self
         | child :: children' =>
             each children' (disable_input_states child (record_and_disable child self))
         end) children self
  end.

(** [restore_input_states(self)] *)
Definition restore_input_states (self : t) : t :=
  mk (layout self) (process_phase self) (process_running self) (widget_states self)
     (fold_left (λ st w, <[w.1 := w.2]> st) (widget_states self) (states self))
     (status_label self) (progress_bar self) (log_button self).

(** [process_start(self, next_phase, activity, event)], where [tree] is the
    view with its descendants as they are then and [queue] is what waits in
    [self.queue]. As in [WindowLayout.monitor_queue], a virtual event that the
    poll generates is recorded; what the handlers bound to it do is theirs. *)
Definition process_start (self : t) (tree : widget) (queue : list QueueMessage)
    (next_phase : string) (activity : string) (event : string)
    : t * list QueueMessage :=
  let self :=
    if negb (process_running self)
    then
      let self := disable_input_states tree self in
      mk (layout self) (process_phase self) true (widget_states self) (states self)
         (status_label self) (progress_bar self) (log_button self)
    else self in
  let '(layout', queue') := WindowLayout.monitor_queue (layout self) queue event in
  (mk layout' (Some next_phase) (process_running self) (widget_states self) (states self)
      (PStr activity, "#00353D") true (log_button self),
   queue').

(** Lines 197-199 and 211-213: the guarded restore. *)
Definition stop_running (self : t) : t :=
  if process_running self
  then
    let self := restore_input_states self in
    mk (layout self) (process_phase self) false (widget_states self) (states self)
       (status_label self) (progress_bar self) (log_button self)
  else self.

(** [process_stop(self)] *)
Definition process_stop (self : t) : t :=
  let self := stop_running self in
  mk (layout self) None (process_running self) (widget_states self) (states self)
     (PStr "Idle", "#00353D") false (log_button self).

(** [process_error(self, message)] *)
Definition process_error (self : t) (message : pyval) : t :=
  let self := stop_running self in
  mk (layout self) None (process_running self) (widget_states self) (states self)
     (message, "red") false true.

(** The identities of the input widgets below [widget], in the order
    [disable_input_states] meets them. *)
Fixpoint inputs (widget : widget) : list nat :=
  match widget with
  | Widget _ _ children =>
      (fix each (children : list Process.widget) : list nat :=
         match children with
         | [] => []
         | Widget ident is_input grand as child :: children' =>
             (if is_input then [ident] else []) ++ inputs child ++ each children'
         end) children
  end.

End Process.

(** ** Worker threads side by side: progress *)

Module Progress.

(** The lock events ahead of a thread that holds [held] now: it acquires only
    when it holds nothing, releases what it holds, and holds nothing at the
    end. *)
Fixpoint alternating (held : option gate) (todo : list event) : Prop :=
  match todo with
  | [] => held = None
  | Acquire g :: todo' => held = None ∧ alternating (Some g) todo'
  | Release g :: todo' => held = Some g ∧ alternating None todo'
  | _ :: todo' => alternating held todo'
  end.

(** Every thread of the pool holds what the locks say it holds and goes on
    as [alternating] says, and every lock that is locked was locked by a
    thread of the pool. *)
Definition inv (σ : Scheduler.state) : Prop :=
  (∀ i th, Scheduler.pool σ !! i = Some th →
     ∃ held, alternating held (Scheduler.todo th) ∧
             ∀ g, held = Some g ↔ Scheduler.locks σ g = Some i) ∧
  (∀ g j, Scheduler.locks σ g = Some j → is_Some (Scheduler.pool σ !! j)).


Definition is_acquire (e : event) : bool :=
  match e with
  | Acquire _ => true
  | _ => false
  end.

End Progress.

(** ** ex_installer/arduino_cli.py: the configuration task *)

Module ArduinoCLIConfig.

(** An item of [extra_platforms]. *)
Record platform : Type := mkPlatform {
  platform_id : string;
  version : string;
  url : string
}.

(** [ArduinoCLI.extra_platforms] *)
Definition extra_platforms : list (string * platform) :=
  [("Espressif ESP32",
    mkPlatform "esp32:esp32" "2.0.17"
      "https://raw.githubusercontent.com/espressif/arduino-esp32/gh-pages/package_esp32_index.json");
   ("STMicroelectronics Nucleo/STM32",
    mkPlatform "STMicroelectronics:stm32" "2.7.1"
      "https://github.com/stm32duino/BoardManagerFiles/raw/main/package_stmicroelectronics_index.json")].

(** [initialise_config(self, file_path, queue)], for any value of
    [self.extra_platforms]. *)
Definition initialise_config (extra_platforms : list (string * platform))
    (file_path : string) : pyexc + list ArduinoCLI.action :=
  let params := ["config"; "init"; "--format"; "jsonmini"; "--overwrite"] in
  let params :=
    if bool_decide (0 < length extra_platforms)%nat
    then
      let platform_list := (λ extra_platform, url extra_platform.2) <$> extra_platforms in
      let _url_list := String.concat "," platform_list in
      params ++ ["--additional-urls"; _url_list]
    else params in
  ArduinoCLI.start file_path params None.

(** A call that starts one task, on [file_path], whose parameters ask for
    the jsonmini output format. *)
Definition starts_json_task (file_path : string) (r : pyexc + list ArduinoCLI.action)
    : Prop :=
  ∃ acli pre post,
    r = inr [ArduinoCLI.ThreadStart acli] ∧
    ThreadedArduinoCLI.params acli = pre ++ "--format" :: "jsonmini" :: post ∧
    ThreadedArduinoCLI.process_params acli = file_path :: ThreadedArduinoCLI.params acli.

End ArduinoCLIConfig.

(** ** ex_installer/git_client.py: local changes and pull *)

Module LocalChanges.

(** libgit2's status flags of the working tree. *)
Definition GIT_STATUS_WT_NEW : Z := 128.
Definition GIT_STATUS_WT_MODIFIED : Z := 256.
Definition GIT_STATUS_WT_DELETED : Z := 512.

(** [gitignore_files] *)
Definition gitignore_files : list string := [".DS_Store"].

(** [os.path.basename] on a path of the repository, whose separator is the
    slash: what follows the last slash. *)
Fixpoint basename_from (acc path : string) : string :=
  match path with
  | EmptyString => acc
  | String c rest =>
      if decide (c = "/"%char)
      then basename_from EmptyString rest
      else basename_from (acc +:+ String c EmptyString) rest
  end.

Definition basename (path : string) : string := basename_from EmptyString path.

(** The working tree as [repo.status()] reports it: the dict of the changed
    files and their flags, in the order of its items. [os.remove] on a file of
    the tree either raises, and the tree stays as it is, or deletes the file,
    and an untracked file that is gone is no longer reported. *)
Definition os_remove (removable : string → bool) (file : string)
    (tree : list (string * Z)) : list (string * Z) :=
  if removable file
  then filter (λ item, item.1 ≠ file) tree
  else tree.

(** Lines 137-145: the loop that discards the files to ignore. *)
Definition discard_ignored (removable : string → bool) (status : list (string * Z))
    (tree : list (string * Z)) : list (string * Z) :=
  fold_left
    (λ tree item,
       let '(file, flag) := item in
       if bool_decide (basename file ∈ gitignore_files)
          && bool_decide (flag = GIT_STATUS_WT_NEW)
       then os_remove removable file tree
       else tree)
    status tree.

(** An item of the status that the loop discards: an untracked file to
    ignore that [os.remove] deletes. *)
Definition discarded (removable : string → bool) (item : string * Z) : bool :=
  bool_decide (basename item.1 ∈ gitignore_files)
  && bool_decide (item.2 = GIT_STATUS_WT_NEW)
  && removable item.1.

(** Lines 149-156: the line of the list for a file and its flag. *)
Definition describe (item : string * Z) : string :=
  let '(file, flag) := item in
  let change :=
    if bool_decide (flag = GIT_STATUS_WT_NEW) then "Added"
    else if bool_decide (flag = GIT_STATUS_WT_DELETED) then "Deleted"
    else if bool_decide (flag = GIT_STATUS_WT_MODIFIED) then "Modified"
    else "Unknown" in
  file +:+ " (" +:+ change +:+ ")".

(** [check_local_changes(repo)]: [is_repository] is the [isinstance] test,
    [repo_str] is [str(repo)] and [tree] the working tree. The result is
    [file_list] (None, or the list) and the working tree afterwards. *)
Definition check_local_changes (is_repository : bool) (repo_str : string)
    (removable : string → bool) (tree : list (string * Z))
    : option (list string) * list (string * Z) :=
  if is_repository
  then
    if bool_decide (0 < length tree)%nat
    then
      let file_list := [] in
      let status := tree in
      let tree := discard_ignored removable status tree in
      let status := tree in
      if bool_decide (0 < length status)%nat
      then (Some (fold_left (λ file_list item, file_list ++ [describe item])
                    status file_list), tree)
      else (Some file_list, tree)
    else (None, tree)
  else (Some [repo_str +:+ " is not a valid repository"], tree).

End LocalChanges.

Module Pull.

(** libgit2's merge analysis flags. *)
Definition GIT_MERGE_ANALYSIS_UP_TO_DATE : Z := 2.
Definition GIT_MERGE_ANALYSIS_FASTFORWARD : Z := 4.

(** What the repository answers to the calls of [pull]: the names of its
    remotes, and for each call whether it raises; the lookup of the remote
    branch gives the id of its target and the merge analysis its flags. *)
Record answers : Type := mkAnswers {
  remotes : list string;
  fetch : option pyexc;
  remote_target : pyexc + Z;
  merge_analysis : pyexc + Z;
  checkout_tree : option pyexc;
  local_reference : option pyexc;
  set_target : option pyexc;
  create_branch : option pyexc;
  head_set_target : option pyexc
}.

(** The calls on the repository, as [pull] makes them. *)
Inductive call : Type :=
| Fetch (remote : string)
| LookupReference (name : string)
| MergeAnalysis (target : Z)
| CheckoutTree (target : Z)
| SetTarget (reference : string) (target : Z)
| CreateBranch (branch : string) (target : Z)
| HeadSetTarget (target : Z).

(** The calls made so far, and the value or the exception raised. *)
Definition M (A : Type) : Type := list call * (pyexc + A).

Definition ret {A} (a : A) : M A := ([], inr a).

Definition bind {A B} (m : M A) (k : A → M B) : M B :=
  match m.2 with
  | inl e => (m.1, inl e)
  | inr a => (m.1 ++ (k a).1, (k a).2)
  end.

(** A call that returns a value or raises, and one that returns nothing. *)
Definition query {A} (c : call) (outcome : pyexc + A) : M A := ([c], outcome).

Definition perform (c : call) (outcome : option pyexc) : M unit :=
  ([c], match outcome with Some e => inl e | None => inr () end).

(** [try: body except KeyError: handler] *)
Definition try_except_KeyError (body handler : M unit) : M unit :=
  match body.2 with
  | inl e =>
      if bool_decide (exc_type e = "KeyError")
      then (body.1 ++ handler.1, handler.2)
      else body
  | inr _ => body
  end.

(** Lines 212-221: the fast-forward. *)
Definition fast_forward (a : answers) (branch : string) (remote_master_id : Z)
    : M pyval :=
  bind (perform (CheckoutTree remote_master_id) (checkout_tree a)) (λ _,
  bind (try_except_KeyError
          (bind (perform (LookupReference ("refs/heads/" +:+ branch)) (local_reference a)) (λ _,
           perform (SetTarget ("refs/heads/" +:+ branch) remote_master_id) (set_target a)))
          (perform (CreateBranch branch remote_master_id) (create_branch a))) (λ _,
  bind (perform (HeadSetTarget remote_master_id) (head_set_target a)) (λ _,
  ret (PBool true)))).

(** [pull(repo, remote_name="origin", branch="master")]: every path through
    the body of the loop returns, so the first remote of that name decides. *)
Definition pull (a : answers) (remote_name branch : string) : M pyval :=
  if bool_decide (remote_name ∈ remotes a)
  then
    bind (perform (Fetch remote_name) (fetch a)) (λ _,
    bind (query (LookupReference ("refs/remotes/origin/" +:+ branch)) (remote_target a))
      (λ remote_master_id,
    bind (query (MergeAnalysis remote_master_id) (merge_analysis a)) (λ merge_result,
    if bool_decide (Z.land merge_result GIT_MERGE_ANALYSIS_UP_TO_DATE ≠ 0)
    then ret (PBool true)
    else if bool_decide (Z.land merge_result GIT_MERGE_ANALYSIS_FASTFORWARD ≠ 0)
    then fast_forward a branch remote_master_id
    else ret (PBool false))))
  else ret PNone.



Definition task_outcome (a : answers) (branch : string) : ThreadedGitClient.task_outcome :=
  match (pull a "origin" branch).2 with
  | inr output => ThreadedGitClient.Returns output
  | inl e => ThreadedGitClient.Raises e
  end.

End Pull.

(** ** ex_installer/select_device.py: the devices the CLI lists *)

Module SelectDevice.

(** [len(v)] *)
Definition py_len (v : pyval) : pyexc + Z :=
  match v with
  | PStr s => inr (Z.of_nat (String.length s))
  | PList l | PTuple l => inr (Z.of_nat (length l))
  | PDict d => inr (Z.of_nat (size d))
  | _ => inl (TypeError ("object of type '" +:+ type_name v +:+ "' has no len()"))
  end.

(** [isinstance(v, list)] *)
Definition is_list (v : pyval) : bool :=
  match v with
  | PList _ => true
  | _ => false
  end.

(** What [for x in v] goes through: a str yields its characters and a dict
    its keys. The keys of a [PDict] come in no particular order; each is a
    str, and the loops below raise the same TypeError on any str. *)
Definition py_iter (v : pyval) : pyexc + list pyval :=
  match v with
  | PList l | PTuple l => inr l
  | PStr s => inr ((λ c, PStr (String c EmptyString)) <$> String.list_ascii_of_string s)
  | PDict d => inr (PStr <$> (map_to_list d).*1)
  | _ => inl (TypeError ("'" +:+ type_name v +:+ "' object is not iterable"))
  end.

(** Lines 170-175: the port made up when [fake] is on. *)
Definition fake_data (system : string) : pyval :=
  let fake_port := if bool_decide (system = "Windows") then "COM10" else "/dev/ttyUSB10" in
  PList [PDict {[ "port" :=
    PDict (<["address" := PStr fake_port]>
           (<["label" := PStr fake_port]>
            (<["protocol" := PStr "serial"]>
             {[ "protocol_label" := PStr "Serial Port (USB)" ]}))) ]}].

(** Lines 165-176: [self.process_data] after the two adjustments, where
    [fake] is [self.parent.fake] and [system] is [platform.system()]. *)
Definition adjust (fake : pyval) (system : string) (process_data : pyval)
    : pyexc + pyval :=
  n ← py_len process_data;
  wrapped ← (if 0 <? n then py_contains "detected_ports" process_data else mret false);
  if wrapped : bool
  then
    ports ← py_getitem process_data "detected_ports";
    mret (if is_list ports then ports else process_data)
  else
    n ← py_len process_data;
    mret (if (n =? 0) && py_is_True fake then fake_data system else process_data).

(** Lines 187-190: the name and the fqbn of a match. *)
Definition matching_board (match_ : pyval) : pyexc + pyval :=
  name ← py_getitem match_ "name";
  fqbn ← py_getitem match_ "fqbn";
  mret (PDict (<["name" := name]> {[ "fqbn" := fqbn ]})).

(** [mapM] in the monad of exceptions: the first exception stops the loop. *)
Fixpoint for_each {A B} (f : A → pyexc + B) (l : list A) : pyexc + list B :=
  match l with
  | [] => mret []
  | x :: l' => y ← f x; ys ← for_each f l'; mret (y :: ys)
  end.

(** Lines 183-195: the dict appended to [self.acli.detected_devices] for a
    board of the list. *)
Definition device_of (board : pyval) : pyexc + pyval :=
  port ← (p ← py_getitem board "port"; py_getitem p "address");
  known ← py_contains "matching_boards" board;
  matching_board_list ←
    (if known : bool
     then
       matches ← (m ← py_getitem board "matching_boards"; py_iter m);
       for_each matching_board matches
     else mret [PDict (<["name" := PStr "Unknown"]> {[ "fqbn" := PStr "unknown" ]})]);
  mret (PDict (<["port" := port]> {[ "matching_boards" := PList matching_board_list ]})).

(** Lines 182-197: the loop over the boards. An exception leaves in
    [detected_devices] the devices appended before it. *)
Fixpoint collect (boards : list pyval) (detected_devices : list pyval)
    : list pyval * option pyexc :=
  match boards with
  | [] => (detected_devices, None)
  | board :: boards' =>
      match device_of board with
      | inl e => (detected_devices, Some e)
      | inr device => collect boards' (detected_devices ++ [device])
      end
  end.

(** What lines 165-197 and 244-245 of [list_devices] leave behind when the
    phase is "refresh_list" and the status "success": [self.process_data],
    [self.acli.detected_devices], whether the label says "No devices found",
    and the exception that escapes, if any. The widgets built for the devices
    (lines 198-243) are not part of it. *)
Record listed : Type := mkListed {
  process_data : pyval;
  detected_devices : list pyval;
  no_devices_found : bool;
  raised : option pyexc
}.

Definition list_devices_success (fake : pyval) (system : string)
    (process_data : pyval) (detected_devices : list pyval) : listed :=
  match adjust fake system process_data with
  | inl e => mkListed process_data detected_devices false (Some e)
  | inr process_data =>
      match process_data with
      | PList (board :: boards) =>
          let '(detected_devices, e) := collect (board :: boards) detected_devices in
          mkListed process_data detected_devices false e
      | _ => mkListed process_data detected_devices true None
      end
  end.

End SelectDevice.

(** ** More concrete inputs *)

Module Samples.

(** A view with a button (1), a frame (2) holding a combo box (3) and a label
    (4); the combo box is read-only. *)
Definition tree : Process.widget :=
  Process.Widget 0 false
    [Process.Widget 1 true [];
     Process.Widget 2 false [Process.Widget 3 true []; Process.Widget 4 false []]].

Definition view : Process.t :=
  Process.mk WindowLayout.idle None false []
    (λ ident, if decide (ident = 3%nat) then "readonly" else "normal")
    (PStr "Idle", "#00353D") false false.

(** A file system with the CLI in place. *)
Definition with_cli : ArduinoCLI.filesystem :=
  ArduinoCLI.mkFs (λ _, true) (λ _, true).

(** The board list of a CLI that found an Uno: a list with one dict. *)
Definition boards : pyval :=
  PList [PDict (<["port" := PDict (<["address" := PStr "/dev/ttyACM0"]> ∅)]>
                (<["matching_boards" :=
                     PList [PDict (<["name" := PStr "Arduino Uno"]>
                                   (<["fqbn" := PStr "arduino:avr:uno"]> ∅))]]> ∅))].

(** A decoder that gives [boards] for every text. *)
Definition loads_boards (text : bytes) : pyexc + pyval := inr boards.


(** A working tree with a Finder file in a sub-directory and a changed
    header. *)
Definition worktree : list (string * Z) :=
  [("src/.DS_Store", LocalChanges.GIT_STATUS_WT_NEW);
   ("config.h", LocalChanges.GIT_STATUS_WT_MODIFIED)].


(** What Arduino CLI 1.0 prints when no board is attached. *)
Definition no_ports : gmap string pyval := {[ "detected_ports" := PList [] ]}.

(** A board the CLI recognises and a port it does not, as CLI 1.0 wraps
    them. *)
Definition two_ports : list pyval :=
  [PDict (<["port" := PDict {[ "address" := PStr "COM3" ]}]>
          {[ "matching_boards" :=
               PList [PDict (<["name" := PStr "Arduino Mega"]>
                             {[ "fqbn" := PStr "arduino:avr:mega" ]})] ]});
   PDict {[ "port" := PDict {[ "address" := PStr "COM7" ]} ]}].

Definition wrapped_ports : gmap string pyval := {[ "detected_ports" := PList two_ports ]}.

End Samples.

(** * Properties *)

(** ** The model on a few inputs *)

Example timedelta_str_default :
  timedelta_str (Timedelta 0 300 0) = "0:05:00".
Proof. reflexivity. Qed.

Example timedelta_str_days :
  timedelta_str (Timedelta 2 3723 5) = "2 days, 1:02:03.000005".
Proof. reflexivity. Qed.

Example timedelta_negative :
  timedelta_of_seconds (-1) = inr (Timedelta (-1) 86399 0) ∧
  timedelta_str (Timedelta (-1) 86399 0) = "-1 day, 23:59:59".
Proof. split; reflexivity. Qed.

Example str_contains_inside : str_contains "error" "no error here" = true.
Proof. reflexivity. Qed.

Example py_contains_int :
  py_contains "error" (PInt 5) = inl (TypeError "argument of type 'int' is not iterable").
Proof. reflexivity. Qed.

(** {"success": true, "compiler_out": "OK"} gives ("Success", "OK"). *)
Example classify_output_success :
  ThreadedArduinoCLI.classify_output
    (PDict (<["success" := PBool true]> (<["compiler_out" := PStr "OK"]> ∅)))
  = inr (PStr "Success", PStr "OK").
Proof. reflexivity. Qed.

(** {"success": false} without the "error" key: KeyError. *)
Example classify_output_key_error :
  ThreadedArduinoCLI.classify_output (PDict (<["success" := PBool false]> ∅))
  = inl (KeyError "error").
Proof. reflexivity. Qed.

(** A non-empty embedded stdout replaces the error field in the data and gets
    the line feed; the embedded stderr follows. *)
Example classify_error_stdout repr :
  ThreadedArduinoCLI.classify_error repr
    (PDict (<["error" := PStr "bad board"]>
            (<["output" := PDict (<["stdout" := PStr "out"]>
                                  (<["stderr" := PStr "detail"]> ∅))]> ∅)))
  = inr (PStr "bad board", PStr ("out" +:+ nl +:+ "detail")).
Proof. reflexivity. Qed.

(** The document of the examples is what it should be. *)
Example bad_board_text_length : String.length Examples.bad_board_text = 54%nat.
Proof. reflexivity. Qed.

(** ** Traces *)
Lemma each_event_split P todo : ∀ done,
  each_event P done todo →
  ∀ pre e post, todo = pre ++ e :: post → P (done ++ pre) e post.
Proof.
  induction todo as [|e0 todo IH]; intros done Hall pre e post Heq.
  - by destruct pre.
  - destruct Hall as [He0 Hrest]. destruct pre as [|e1 pre]; simplify_eq/=.
    + by rewrite app_nil_r.
    + rewrite (cons_middle e1 done pre), app_assoc. by eapply IH.
Qed.

Lemma holding_snoc g done e :
  holding g (done ++ [e]) =
    match e with
    | Acquire g' => if decide (g' = g) then true else holding g done
    | Release g' => if decide (g' = g) then false else holding g done
    | _ => holding g done
    end.
Proof. unfold holding. by rewrite fold_left_app. Qed.

Lemma calling_snoc g done e :
  calling g (done ++ [e]) =
    match e with
    | CallBegin g' => if decide (g' = g) then true else calling g done
    | CallEnd g' => if decide (g' = g) then false else calling g done
    | _ => calling g done
    end.
Proof. unfold calling. by rewrite fold_left_app. Qed.

(** ** ThreadedArduinoCLI.run, case by case *)

Section cli_run.
Variable repr : pyval → string.
Variable loads : bytes → pyexc + pyval.
Import ThreadedArduinoCLI.

Ltac run_unfold :=
  unfold run_thread, run, with_lock, try_except, popen_communicate, getattr, classify, lift;
  unfold mbind, mret, M_bind, M_ret, exc_bind, exc_ret, bind, ret, emit, raise, modify, get.

Lemma status_of_returncode (rc : Z) :
  (if bool_decide (Some rc = Some 0) then "success" else "error")
  = (if bool_decide (rc = 0) then "success" else "error").
Proof. repeat case_bool_decide; congruence. Qed.

Lemma run_thread_completed self out err rc elapsed :
  run_thread repr loads self (Completed out err rc) elapsed =
    if timed_out self elapsed
    then ([Put (info_message repr self); Acquire arduino_cli_lock;
           CallBegin arduino_cli_lock; CallEnd arduino_cli_lock;
           Put (timeout_message self); Terminate; Release arduino_cli_lock], None)
    else
      match classify repr loads err out with
      | inr (topic, data) =>
          ([Put (info_message repr self); Acquire arduino_cli_lock;
            CallBegin arduino_cli_lock; CallEnd arduino_cli_lock;
            Put (mkQueueMessage (if bool_decide (rc = 0) then "success" else "error")
                                topic data);
            Release arduino_cli_lock], None)
      | inl e =>
          ([Put (info_message repr self); Acquire arduino_cli_lock;
            CallBegin arduino_cli_lock; CallEnd arduino_cli_lock;
            Release arduino_cli_lock], Some e)
      end.
Proof.
  run_unfold. simpl.
  destruct (timed_out self elapsed); [reflexivity|].
  destruct err as [|c err]; simpl.
  - destruct out as [|c out]; simpl.
    + rewrite status_of_returncode. reflexivity.
    + destruct (loads (c :: out)) as [e|details]; [reflexivity|].
      destruct (classify_output details) as [e|[topic data]]; [reflexivity|].
      simpl. rewrite status_of_returncode. reflexivity.
  - destruct (loads (c :: err)) as [e|error]; [reflexivity|].
    destruct (classify_error repr error) as [e|[topic data]]; [reflexivity|].
    simpl. rewrite status_of_returncode. reflexivity.
Qed.

Lemma run_thread_popen_raises self e elapsed :
  run_thread repr loads self (PopenRaises e) elapsed =
    if exc_is_Exception e
    then
      if timed_out self elapsed
      then ([Put (info_message repr self); Acquire arduino_cli_lock;
             CallBegin arduino_cli_lock; CallEnd arduino_cli_lock;
             Put (mkQueueMessage "error" (PStr (exc_str e)) (PStr (exc_str e)));
             Put (timeout_message self); Release arduino_cli_lock],
            Some (AttributeError "ThreadedArduinoCLI" "process"))
      else ([Put (info_message repr self); Acquire arduino_cli_lock;
             CallBegin arduino_cli_lock; CallEnd arduino_cli_lock;
             Put (mkQueueMessage "error" (PStr (exc_str e)) (PStr (exc_str e)));
             Release arduino_cli_lock],
            Some (AttributeError "ThreadedArduinoCLI" "error"))
    else ([Put (info_message repr self); Acquire arduino_cli_lock;
           CallBegin arduino_cli_lock; CallEnd arduino_cli_lock;
           Release arduino_cli_lock], Some e).
Proof.
  run_unfold. simpl.
  destruct (exc_is_Exception e); [|reflexivity].
  destruct (timed_out self elapsed); reflexivity.
Qed.

Lemma run_thread_communicate_raises self rc e elapsed :
  run_thread repr loads self (CommunicateRaises rc e) elapsed =
    if exc_is_Exception e
    then
      if timed_out self elapsed
      then ([Put (info_message repr self); Acquire arduino_cli_lock;
             CallBegin arduino_cli_lock; CallEnd arduino_cli_lock;
             Put (mkQueueMessage "error" (PStr (exc_str e)) (PStr (exc_str e)));
             Put (timeout_message self); Terminate; Release arduino_cli_lock],
            None)
      else ([Put (info_message repr self); Acquire arduino_cli_lock;
             CallBegin arduino_cli_lock; CallEnd arduino_cli_lock;
             Put (mkQueueMessage "error" (PStr (exc_str e)) (PStr (exc_str e)));
             Release arduino_cli_lock],
            Some (AttributeError "ThreadedArduinoCLI" "error"))
    else ([Put (info_message repr self); Acquire arduino_cli_lock;
           CallBegin arduino_cli_lock; CallEnd arduino_cli_lock;
           Release arduino_cli_lock], Some e).
Proof.
  run_unfold. simpl.
  destruct (exc_is_Exception e); [|reflexivity].
  destruct (timed_out self elapsed); reflexivity.
Qed.
End cli_run.

(** ** ThreadedGitClient.run, case by case *)

Lemma git_run_thread repr self oc :
  ThreadedGitClient.run_thread repr self oc =
    match oc with
    | ThreadedGitClient.Returns output =>
        ([Put (ThreadedGitClient.info_message repr self); Acquire api_lock;
          CallBegin api_lock; CallEnd api_lock;
          Put (mkQueueMessage "success" (PStr (ThreadedGitClient.task_name self)) output);
          Release api_lock], None)
    | ThreadedGitClient.Raises e =>
        if exc_is_Exception e
        then
          ([Put (ThreadedGitClient.info_message repr self); Acquire api_lock;
            CallBegin api_lock; CallEnd api_lock;
            Put (mkQueueMessage "error" (PStr (ThreadedGitClient.task_name self))
                   (PStr (ThreadedGitClient.get_exception repr e)));
            Release api_lock], None)
        else
          ([Put (ThreadedGitClient.info_message repr self); Acquire api_lock;
            CallBegin api_lock; CallEnd api_lock; Release api_lock], Some e)
    end.
Proof.
  unfold ThreadedGitClient.run_thread, ThreadedGitClient.run,
    ThreadedGitClient.call_task, with_lock, try_except.
  unfold mbind, mret, M_bind, M_ret, bind, ret, emit, raise.
  destruct oc as [output|e]; simpl; [reflexivity|].
  destruct (exc_is_Exception e); reflexivity.
Qed.

(** Exactly one terminal Message per run of a git task whose failure, if any,
    is an [Exception], and nothing escapes the thread. *)
Lemma git_run_one_terminal repr self oc :
  (∀ e, oc = ThreadedGitClient.Raises e → exc_is_Exception e = true) →
  ∃ m, terminal_puts (ThreadedGitClient.run_thread repr self oc).1 = [m]
       ∧ (ThreadedGitClient.run_thread repr self oc).2 = None.
Proof.
  intros Hexc. rewrite git_run_thread. destruct oc as [output|e].
  - eexists. split; reflexivity.
  - rewrite (Hexc e eq_refl). eexists. split; reflexivity.
Qed.

(** ** Worker threads keep the lock discipline *)

Lemma cli_trace_disciplined repr loads self oc elapsed :
  disciplined [] (ThreadedArduinoCLI.run_thread repr loads self oc elapsed).1.
Proof.
  destruct oc as [e|rc e|out err rc].
  - rewrite run_thread_popen_raises.
    destruct (exc_is_Exception e), (ThreadedArduinoCLI.timed_out self elapsed);
      cbn; repeat split.
  - rewrite run_thread_communicate_raises.
    destruct (exc_is_Exception e), (ThreadedArduinoCLI.timed_out self elapsed);
      cbn; repeat split.
  - rewrite run_thread_completed.
    destruct (ThreadedArduinoCLI.timed_out self elapsed); [cbn; repeat split|].
    destruct (ThreadedArduinoCLI.classify repr loads err out) as [e|[topic data]];
      cbn; repeat split.
Qed.

Lemma git_trace_disciplined repr self oc :
  disciplined [] (ThreadedGitClient.run_thread repr self oc).1.
Proof.
  rewrite git_run_thread. destruct oc as [output|e]; [cbn; repeat split|].
  destruct (exc_is_Exception e); cbn; repeat split.
Qed.

Lemma worker_trace_disciplined tr :
  Scheduler.worker_trace tr → disciplined [] tr.
Proof.
  intros [repr loads self oc elapsed | repr self oc].
  - apply cli_trace_disciplined.
  - apply git_trace_disciplined.
Qed.

(** ** The pool invariant *)

Lemma inv_init traces :
  Forall (disciplined []) traces → Scheduler.inv (Scheduler.init traces).
Proof.
  intros Hd i th Hi. unfold Scheduler.init in Hi; simpl in Hi.
  apply list_lookup_fmap_Some in Hi as (tr & -> & Htr).
  simpl. split; [|split].
  - eapply Forall_lookup_1 in Hd; eauto.
  - intros g. discriminate.
  - intros g. split; discriminate.
Qed.

Lemma inv_step σ σ' : Scheduler.inv σ → Scheduler.step σ σ' → Scheduler.inv σ'.
Proof.
  intros Hinv Hstep. destruct Hstep as
    [σ i th g todo' Hi Htodo Hfree | σ i th g todo' Hi Htodo Hlocked | σ i th e todo' Hi Htodo Hne].
  - intros j thj Hj; simpl in *.
    destruct (decide (i = j)) as [<-|Hij].
    + rewrite list_lookup_insert_eq in Hj by (by eapply lookup_lt_Some). simplify_eq.
      destruct (Hinv i th Hi) as (Hd & Hc & Hl). rewrite Htodo in Hd.
      destruct Hd as [Hperm Hd]. simpl in *. split; [done|split].
      * intros g'. rewrite calling_snoc, holding_snoc.
        case_decide; [done|]. apply Hc.
      * intros g'. rewrite holding_snoc. case_decide as Hg.
        -- subst. by rewrite fn_lookup_insert.
        -- rewrite fn_lookup_insert_ne by done. apply Hl.
    + rewrite list_lookup_insert_ne in Hj by done.
      destruct (Hinv j thj Hj) as (Hd & Hc & Hl). split; [done|split; [done|]].
      intros g'. destruct (decide (g = g')) as [<-|Hg].
      * rewrite fn_lookup_insert. rewrite Hl, Hfree. split; [done|]. intros; simplify_eq.
      * rewrite fn_lookup_insert_ne by done. apply Hl.
  - intros j thj Hj; simpl in *.
    destruct (decide (i = j)) as [<-|Hij].
    + rewrite list_lookup_insert_eq in Hj by (by eapply lookup_lt_Some). simplify_eq.
      destruct (Hinv i th Hi) as (Hd & Hc & Hl). rewrite Htodo in Hd.
      destruct Hd as [[Hheld Hcall] Hd]. simpl in *. split; [done|split].
      * intros g'. rewrite calling_snoc, holding_snoc.
        case_decide; [subst; by rewrite Hcall|]. apply Hc.
      * intros g'. rewrite holding_snoc. case_decide as Hg.
        -- subst. by rewrite fn_lookup_insert.
        -- rewrite fn_lookup_insert_ne by done. apply Hl.
    + rewrite list_lookup_insert_ne in Hj by done.
      destruct (Hinv j thj Hj) as (Hd & Hc & Hl). split; [done|split; [done|]].
      intros g'. destruct (decide (g = g')) as [<-|Hg].
      * rewrite fn_lookup_insert. rewrite Hl.
        destruct (Hinv i th Hi) as (Hdi & _ & Hli). rewrite Htodo in Hdi.
        destruct Hdi as [[Hheld _] _]. apply Hli in Hheld. rewrite Hheld.
        split; [|done]. intros; simplify_eq.
      * rewrite fn_lookup_insert_ne by done. apply Hl.
  - intros j thj Hj; simpl in *.
    destruct (decide (i = j)) as [<-|Hij].
    + rewrite list_lookup_insert_eq in Hj by (by eapply lookup_lt_Some). simplify_eq.
      destruct (Hinv i th Hi) as (Hd & Hc & Hl). rewrite Htodo in Hd.
      destruct Hd as [Hperm Hd]. simpl in *. split; [done|split].
      * intros g'. rewrite calling_snoc, holding_snoc.
        destruct e as [m|g|g|g|g|]; try apply Hc.
        -- by destruct (Hne g) as [? _].
        -- by destruct (Hne g) as [_ ?].
        -- case_decide; [by subst|apply Hc].
        -- case_decide; [done|apply Hc].
      * intros g'. rewrite holding_snoc.
        destruct e as [m|g|g|g|g|]; try apply Hl.
        -- by destruct (Hne g) as [? _].
        -- by destruct (Hne g) as [_ ?].
    + rewrite list_lookup_insert_ne in Hj by done. by apply Hinv.
Qed.

Lemma inv_reachable traces σ :
  Forall (disciplined []) traces → Scheduler.reachable traces σ → Scheduler.inv σ.
Proof.
  intros Hd Hreach. revert σ Hreach. apply rtc_ind_r; [by apply inv_init|].
  intros σ σ' _ Hstep Hinv. by eapply inv_step.
Qed.


(** ** The claims *)

Lemma elem_of_cli_trace_gate repr loads self oc elapsed e g :
  e ∈ (ThreadedArduinoCLI.run_thread repr loads self oc elapsed).1 →
  event_gate e = Some g → g = arduino_cli_lock.
Proof.
  destruct oc as [x|rc x|out err rc].
  - rewrite run_thread_popen_raises.
    destruct (exc_is_Exception x), (ThreadedArduinoCLI.timed_out self elapsed);
      cbn; rewrite ?elem_of_cons, elem_of_nil; intros He Hg;
      intuition (subst; simpl in *; congruence).
  - rewrite run_thread_communicate_raises.
    destruct (exc_is_Exception x), (ThreadedArduinoCLI.timed_out self elapsed);
      cbn; rewrite ?elem_of_cons, elem_of_nil; intros He Hg;
      intuition (subst; simpl in *; congruence).
  - rewrite run_thread_completed.
    destruct (ThreadedArduinoCLI.timed_out self elapsed);
      [|destruct (ThreadedArduinoCLI.classify repr loads err out) as [x|[topic data]]];
      cbn; rewrite ?elem_of_cons, elem_of_nil; intros He Hg;
      intuition (subst; simpl in *; congruence).
Qed.

Lemma elem_of_git_trace_gate repr self oc e g :
  e ∈ (ThreadedGitClient.run_thread repr self oc).1 →
  event_gate e = Some g → g = api_lock.
Proof.
  rewrite git_run_thread.
  destruct oc as [output|x]; [|destruct (exc_is_Exception x)];
    cbn; rewrite ?elem_of_cons, elem_of_nil; intros He Hg;
    intuition (subst; simpl in *; congruence).
Qed.

(** C6. There are two gates, [arduino_cli_lock] for the CLI tasks and
    [api_lock] for the git tasks, and no others. In every state that a pool of
    worker threads can reach, whatever the interleaving and whatever the
    external calls answer: at most one thread holds a given gate; a thread
    that is inside its external call holds its gate, and the lock records it
    as the holder; so two threads are never inside external calls guarded by
    the same gate at the same time. *)
Theorem C6_gate_mutual_exclusion traces σ :
  Forall Scheduler.worker_trace traces →
  Scheduler.reachable traces σ →
  (∀ g, g = arduino_cli_lock ∨ g = api_lock) ∧
  arduino_cli_lock ≠ api_lock ∧
  (∀ repr loads self oc elapsed e g,
     e ∈ (ThreadedArduinoCLI.run_thread repr loads self oc elapsed).1 →
     event_gate e = Some g → g = Scheduler.gate_of Scheduler.arduino_cli) ∧
  (∀ repr self oc e g,
     e ∈ (ThreadedGitClient.run_thread repr self oc).1 →
     event_gate e = Some g → g = Scheduler.gate_of Scheduler.pygit2) ∧
  (∀ g i j thi thj,
     Scheduler.pool σ !! i = Some thi →
     Scheduler.pool σ !! j = Some thj →
     (holding g (Scheduler.done thi) = true →
      holding g (Scheduler.done thj) = true → i = j) ∧
     (calling g (Scheduler.done thi) = true →
      holding g (Scheduler.done thi) = true ∧ Scheduler.locks σ g = Some i) ∧
     (calling g (Scheduler.done thi) = true →
      calling g (Scheduler.done thj) = true → i = j)).
Proof.
  intros Htraces Hreach.
  assert (Hinv : Scheduler.inv σ).
  { eapply inv_reachable; [|done].
    eapply Forall_impl; [apply worker_trace_disciplined|done]. }
  split; [by intros []; auto|]. split; [done|].
  split; [apply elem_of_cli_trace_gate|]. split; [apply elem_of_git_trace_gate|].
  intros g i j thi thj Hi Hj.
  destruct (Hinv i thi Hi) as (_ & Hci & Hli).
  destruct (Hinv j thj Hj) as (_ & Hcj & Hlj).
  assert (Hexcl : holding g (Scheduler.done thi) = true →
                  holding g (Scheduler.done thj) = true → i = j).
  { intros H1 H2. apply Hli in H1. apply Hlj in H2. congruence. }
  split; [done|]. split.
  - intros Hc. split; [by apply Hci|]. by apply Hli, Hci.
  - intros H1 H2. apply Hexcl; [by apply Hci|by apply Hcj].
Qed.

Lemma C6_gate_mutual_exclusion_witness :
  Forall Scheduler.worker_trace Examples.two_tasks ∧
  Scheduler.reachable Examples.two_tasks Examples.first_in_call ∧
  calling arduino_cli_lock (take 3 Examples.quiet_run) = true ∧
  Scheduler.locks Examples.first_in_call arduino_cli_lock = Some 0%nat ∧
  calling arduino_cli_lock (take 1 Examples.quiet_run) = false.
Proof.
  assert (Htraces : Forall Scheduler.worker_trace Examples.two_tasks).
  { repeat constructor. }
  assert (Hreach : Scheduler.reachable Examples.two_tasks Examples.first_in_call).
  { unfold Scheduler.reachable.
    eapply rtc_l.
    { eapply (Scheduler.step_other _ 0%nat); [reflexivity|reflexivity|done]. }
    eapply rtc_l.
    { eapply (Scheduler.step_acquire _ 0%nat); [reflexivity|reflexivity|reflexivity]. }
    eapply rtc_l.
    { eapply (Scheduler.step_other _ 0%nat); [reflexivity|reflexivity|done]. }
    eapply rtc_l.
    { eapply (Scheduler.step_other _ 1%nat); [reflexivity|reflexivity|done]. }
    apply rtc_refl. }
  split; [exact Htraces|]. split; [exact Hreach|].
  destruct (C6_gate_mutual_exclusion _ _ Htraces Hreach) as (_ & _ & _ & _ & Hpool).
  destruct (Hpool arduino_cli_lock 0%nat 1%nat _ _ eq_refl eq_refl) as (_ & Hcall & Hno).
  split; [reflexivity|]. split; [apply Hcall; reflexivity|].
  destruct (calling arduino_cli_lock (take 1 Examples.quiet_run)) eqn:Hc; [|done].
  exfalso. cut (0%nat = 1%nat); [done|]. apply Hno; [reflexivity|exact Hc].
Defined.

(** What C4 needs of a trace: a terminal Message is put only while [g] is
    held, and [g] is released afterwards. *)
Lemma terminal_put_inside g tr :
  each_event
    (λ done e todo,
       match e with
       | Put m => is_terminal m = true → holding g done = true ∧ Release g ∈ todo
       | _ => True
       end) [] tr →
  ∀ pre m post, tr = pre ++ Put m :: post → is_terminal m = true →
    holding g pre = true ∧ Release g ∈ post.
Proof.
  intros Hall pre m post Heq. exact (each_event_split _ _ _ Hall pre (Put m) post Heq).
Qed.

Ltac inside_gate :=
  cbn;
  repeat match goal with
    | |- True => exact I
    | |- _ ∧ _ => split
    | |- _ → _ =>
        let Hterm := fresh "Hterm" in
        intros Hterm;
        first [ by vm_compute in Hterm
              | split; [reflexivity | rewrite ?elem_of_cons; auto 10] ]
    end.

(** C4, as the code has it. In every run of a CLI task and of a git task, a
    terminal Message is put on the queue while the task still holds its gate,
    and the gate is released afterwards; only the info Message, the first
    event of the run, is put before the gate is acquired. *)
Theorem C4_terminal_put_while_gate_held :
  (∀ repr loads self oc elapsed pre m post,
     (ThreadedArduinoCLI.run_thread repr loads self oc elapsed).1 = pre ++ Put m :: post →
     is_terminal m = true →
     holding arduino_cli_lock pre = true ∧ Release arduino_cli_lock ∈ post) ∧
  (∀ repr self oc pre m post,
     (ThreadedGitClient.run_thread repr self oc).1 = pre ++ Put m :: post →
     is_terminal m = true →
     holding api_lock pre = true ∧ Release api_lock ∈ post) ∧
  (∀ repr loads self oc elapsed, ∃ rest,
     (ThreadedArduinoCLI.run_thread repr loads self oc elapsed).1 =
       Put (ThreadedArduinoCLI.info_message repr self) :: Acquire arduino_cli_lock :: rest) ∧
  (∀ repr self oc, ∃ rest,
     (ThreadedGitClient.run_thread repr self oc).1 =
       Put (ThreadedGitClient.info_message repr self) :: Acquire api_lock :: rest).
Proof.
  split; [|split; [|split]].
  - intros repr loads self oc elapsed. apply terminal_put_inside.
    destruct oc as [e|rc e|out err rc].
    + rewrite run_thread_popen_raises.
      destruct (exc_is_Exception e), (ThreadedArduinoCLI.timed_out self elapsed);
        inside_gate.
    + rewrite run_thread_communicate_raises.
      destruct (exc_is_Exception e), (ThreadedArduinoCLI.timed_out self elapsed);
        inside_gate.
    + rewrite run_thread_completed.
      destruct (ThreadedArduinoCLI.timed_out self elapsed); [inside_gate|].
      destruct (ThreadedArduinoCLI.classify repr loads err out) as [e|[topic data]];
        inside_gate.
  - intros repr self oc. apply terminal_put_inside. rewrite git_run_thread.
    destruct oc as [output|e]; [inside_gate|].
    destruct (exc_is_Exception e); inside_gate.
  - intros repr loads self oc elapsed. destruct oc as [e|rc e|out err rc].
    + rewrite run_thread_popen_raises.
      destruct (exc_is_Exception e), (ThreadedArduinoCLI.timed_out self elapsed);
        eexists; reflexivity.
    + rewrite run_thread_communicate_raises.
      destruct (exc_is_Exception e), (ThreadedArduinoCLI.timed_out self elapsed);
        eexists; reflexivity.
    + rewrite run_thread_completed.
      destruct (ThreadedArduinoCLI.timed_out self elapsed); [eexists; reflexivity|].
      destruct (ThreadedArduinoCLI.classify repr loads err out) as [e|[topic data]];
        eexists; reflexivity.
  - intros repr self oc. rewrite git_run_thread.
    destruct oc as [output|e]; [eexists; reflexivity|].
    destruct (exc_is_Exception e); eexists; reflexivity.
Qed.

Lemma C4_terminal_put_while_gate_held_witness :
  holding arduino_cli_lock (take 4 Examples.quiet_run) = true ∧
  Release arduino_cli_lock ∈ drop 5 Examples.quiet_run.
Proof.
  apply (proj1 C4_terminal_put_while_gate_held Examples.repr Examples.loads
           (Examples.acli 300) (ThreadedArduinoCLI.Completed [] [] 0)
           Examples.half_second (take 4 Examples.quiet_run)
           (mkQueueMessage "success" (PStr "No output") (PStr "No output"))
           (drop 5 Examples.quiet_run)).
  - reflexivity.
  - reflexivity.
Defined.

(** C4 as stated fails. In the run of a CLI task whose subprocess prints
    nothing and exits with 0, the terminal Message ("success", "No output",
    "No output") is the fifth event, and the gate acquired at the second event
    is still held then: it is released at the sixth. *)
Lemma C4_counterexample :
  ¬ (∀ pre m post,
       Examples.quiet_run = pre ++ Put m :: post →
       is_terminal m = true →
       holding arduino_cli_lock pre = false).
Proof.
  intros Hclaim.
  specialize (Hclaim (take 4 Examples.quiet_run)
                (mkQueueMessage "success" (PStr "No output") (PStr "No output"))
                (drop 5 Examples.quiet_run) eq_refl eq_refl).
  discriminate Hclaim.
Qed.

(** C3, as the code has it. A task constructed without a time limit gets
    300 seconds; [list_boards] passes 120 and [install_package] 600;
    [compile_sketch] and [upload_sketch] pass none and so run under the
    default 300 seconds. No constructed task is without a limit. *)
Theorem C3_time_limits :
  (∀ acli_path params,
     ThreadedArduinoCLI.__init__ acli_path params None =
       inr (ThreadedArduinoCLI.mk params (acli_path :: params) (Some (Timedelta 0 300 0)))) ∧
  (∀ file_path,
     ArduinoCLI.list_boards file_path =
       inr [ArduinoCLI.ThreadStart
              (ThreadedArduinoCLI.mk ["board"; "list"; "--format"; "jsonmini"]
                 [file_path; "board"; "list"; "--format"; "jsonmini"]
                 (Some (Timedelta 0 120 0)))]) ∧
  (∀ file_path package,
     ArduinoCLI.install_package file_path package =
       inr [ArduinoCLI.ThreadStart
              (ThreadedArduinoCLI.mk ["core"; "install"; package; "--format"; "jsonmini"]
                 [file_path; "core"; "install"; package; "--format"; "jsonmini"]
                 (Some (Timedelta 0 600 0)))]) ∧
  (∀ file_path fqbn sketch_dir,
     ArduinoCLI.compile_sketch file_path fqbn sketch_dir =
       inr [ArduinoCLI.ThreadStart
              (ThreadedArduinoCLI.mk ["compile"; "-b"; fqbn; sketch_dir; "--format"; "jsonmini"]
                 [file_path; "compile"; "-b"; fqbn; sketch_dir; "--format"; "jsonmini"]
                 (Some (Timedelta 0 300 0)))]) ∧
  (∀ file_path fqbn port sketch_dir, ∃ params,
     ArduinoCLI.upload_sketch file_path fqbn port sketch_dir =
       inr [ArduinoCLI.ThreadStart
              (ThreadedArduinoCLI.mk params (file_path :: params)
                 (Some (Timedelta 0 300 0)))]) ∧
  (∀ acli_path params time_limit,
     match ThreadedArduinoCLI.__init__ acli_path params time_limit with
     | inr self => is_Some (ThreadedArduinoCLI.time_limit self)
     | inl _ => True
     end).
Proof.
  repeat split; try reflexivity.
  - intros file_path fqbn port sketch_dir. eexists. reflexivity.
  - intros acli_path params time_limit.
    unfold ThreadedArduinoCLI.__init__.
    destruct (timedelta_of_seconds (default 300 time_limit)) as [e|limit]; simpl;
      [exact I|]. by eexists.
Qed.

(** C3 as stated fails for the compile and upload operations: the task that
    [compile_sketch] starts has the time limit 0:05:00, not None, and so has
    the task that [upload_sketch] starts. *)
Lemma C3_counterexample :
  ¬ (∀ acli,
       (ArduinoCLI.compile_sketch "arduino-cli" "arduino:avr:uno" "sketch"
          = inr [ArduinoCLI.ThreadStart acli] ∨
        ArduinoCLI.upload_sketch "arduino-cli" "arduino:avr:uno" "/dev/ttyACM0" "sketch"
          = inr [ArduinoCLI.ThreadStart acli]) →
       ThreadedArduinoCLI.time_limit acli = None).
Proof.
  intros Hclaim.
  specialize (Hclaim
    (ThreadedArduinoCLI.mk ["compile"; "-b"; "arduino:avr:uno"; "sketch"; "--format"; "jsonmini"]
       ["arduino-cli"; "compile"; "-b"; "arduino:avr:uno"; "sketch"; "--format"; "jsonmini"]
       (Some (Timedelta 0 300 0)))
    (or_introl eq_refl)).
  discriminate Hclaim.
Qed.

(** C10. When the CLI is not installed at [file_path] (not a file, or not
    executable), each of [get_version], [get_platforms] and [get_libraries]
    does one thing on the calling thread: it puts ("error", "Arduino CLI is
    not installed", "Arduino CLI is not installed") on the queue. It starts
    no worker thread, so no info Message is put. *)
Theorem C10_not_installed fs file_path :
  ArduinoCLI.isfile fs file_path = false ∨ ArduinoCLI.access_X_OK fs file_path = false →
  ArduinoCLI.is_installed fs file_path = false ∧
  ArduinoCLI.get_version fs file_path =
    inr [ArduinoCLI.QueuePut
           (mkQueueMessage "error" (PStr "Arduino CLI is not installed")
                                   (PStr "Arduino CLI is not installed"))] ∧
  ArduinoCLI.get_platforms fs file_path =
    inr [ArduinoCLI.QueuePut
           (mkQueueMessage "error" (PStr "Arduino CLI is not installed")
                                   (PStr "Arduino CLI is not installed"))] ∧
  ArduinoCLI.get_libraries fs file_path =
    inr [ArduinoCLI.QueuePut
           (mkQueueMessage "error" (PStr "Arduino CLI is not installed")
                                   (PStr "Arduino CLI is not installed"))].
Proof.
  intros Hmissing.
  assert (Hno : ArduinoCLI.is_installed fs file_path = false).
  { unfold ArduinoCLI.is_installed.
    destruct Hmissing as [-> | ->]; [reflexivity|].
    by destruct (ArduinoCLI.isfile fs file_path). }
  unfold ArduinoCLI.get_version, ArduinoCLI.get_platforms, ArduinoCLI.get_libraries.
  rewrite Hno. repeat split.
Qed.

Lemma C10_not_installed_witness :
  ArduinoCLI.get_version Examples.no_cli "arduino-cli" =
    inr [ArduinoCLI.QueuePut
           (mkQueueMessage "error" (PStr "Arduino CLI is not installed")
                                   (PStr "Arduino CLI is not installed"))].
Proof.
  apply (C10_not_installed Examples.no_cli "arduino-cli").
  left. reflexivity.
Defined.













(** C2, what the code does instead. When the stream that [run] decodes is not
    JSON, so that [json.loads] raises [e], and the timeout check does not
    fire, the run puts the info Message and nothing else: the exception
    leaves the thread and no terminal Message reaches the queue. *)
Theorem C2_malformed_output_no_message repr loads self out err rc elapsed e :
  ThreadedArduinoCLI.timed_out self elapsed = false →
  (bytes_truthy err = true ∧ loads err = inl e) ∨
  (bytes_truthy err = false ∧ bytes_truthy out = true ∧ loads out = inl e) →
  ThreadedArduinoCLI.run_thread repr loads self
    (ThreadedArduinoCLI.Completed out err rc) elapsed =
  ([Put (ThreadedArduinoCLI.info_message repr self);
    Acquire arduino_cli_lock;
    CallBegin arduino_cli_lock; CallEnd arduino_cli_lock;
    Release arduino_cli_lock], Some e) ∧
  terminal_puts
    (ThreadedArduinoCLI.run_thread repr loads self
       (ThreadedArduinoCLI.Completed out err rc) elapsed).1 = [].
Proof.
  intros Hlimit Hbad.
  assert (Hclass : ThreadedArduinoCLI.classify repr loads err out = inl e).
  { unfold ThreadedArduinoCLI.classify.
    destruct Hbad as [[-> ->] | (-> & -> & ->)]; reflexivity. }
  rewrite run_thread_completed, Hlimit, Hclass. split; reflexivity.
Qed.

Lemma C2_malformed_output_no_message_witness :
  terminal_puts
    (ThreadedArduinoCLI.run_thread Examples.repr Examples.loads (Examples.acli 300)
       (ThreadedArduinoCLI.Completed [] (Examples.b "not json") 1)
       Examples.half_second).1 = [].
Proof.
  apply (C2_malformed_output_no_message Examples.repr Examples.loads (Examples.acli 300)
           [] (Examples.b "not json") 1 Examples.half_second Examples.JSONDecodeError).
  - reflexivity.
  - left. split; reflexivity.
Defined.

(** C1, what the code does instead. When Popen raises an [Exception] (no
    executable at the path, say), [run] puts ("error", str(e), str(e)) and
    goes on: if the timeout check does not fire, reading [self.error], which
    was never assigned, raises AttributeError, and that exception leaves the
    thread after the Message was put; if the check fires, a second terminal
    Message (the timeout) is put before [self.process.terminate()] raises
    AttributeError. *)
Theorem C1_launch_failure repr loads self e elapsed :
  exc_is_Exception e = true →
  (ThreadedArduinoCLI.timed_out self elapsed = false →
   terminal_puts
     (ThreadedArduinoCLI.run_thread repr loads self
        (ThreadedArduinoCLI.PopenRaises e) elapsed).1 =
     [mkQueueMessage "error" (PStr (exc_str e)) (PStr (exc_str e))] ∧
   (ThreadedArduinoCLI.run_thread repr loads self
      (ThreadedArduinoCLI.PopenRaises e) elapsed).2 =
     Some (AttributeError "ThreadedArduinoCLI" "error")) ∧
  (ThreadedArduinoCLI.timed_out self elapsed = true →
   terminal_puts
     (ThreadedArduinoCLI.run_thread repr loads self
        (ThreadedArduinoCLI.PopenRaises e) elapsed).1 =
     [mkQueueMessage "error" (PStr (exc_str e)) (PStr (exc_str e));
      ThreadedArduinoCLI.timeout_message self] ∧
   (ThreadedArduinoCLI.run_thread repr loads self
      (ThreadedArduinoCLI.PopenRaises e) elapsed).2 =
     Some (AttributeError "ThreadedArduinoCLI" "process")).
Proof.
  intros Hexc. rewrite run_thread_popen_raises, Hexc.
  split; intros ->; split; reflexivity.
Qed.

Lemma C1_launch_failure_witness :
  (ThreadedArduinoCLI.run_thread Examples.repr Examples.loads (Examples.acli 300)
     (ThreadedArduinoCLI.PopenRaises Examples.FileNotFoundError) Examples.half_second).2 =
  Some (AttributeError "ThreadedArduinoCLI" "error").
Proof.
  apply (proj1 (C1_launch_failure Examples.repr Examples.loads (Examples.acli 300)
                  Examples.FileNotFoundError Examples.half_second eq_refl)).
  reflexivity.
Defined.

(** ** The poller *)

Lemma monitor_queue_no_terminal self queue event :
  Forall (λ m, is_terminal m = false) queue →
  WindowLayout.monitor_queue self queue event = (WindowLayout.after 100 event self, []).
Proof.
  induction 1 as [|m queue Hm _ IH]; [reflexivity|].
  simpl. unfold is_terminal in Hm. by rewrite Hm.
Qed.

Lemma monitor_queue_first_terminal self infos m rest event :
  Forall (λ m, is_terminal m = false) infos →
  is_terminal m = true →
  WindowLayout.monitor_queue self (infos ++ m :: rest) event =
    (WindowLayout.mk (Some (status m)) (Some (topic m)) (Some (data m))
       (WindowLayout.generated self ++ ["<<" +:+ event +:+ ">>"])
       (WindowLayout.timers self), rest).
Proof.
  intros Hinfos Hm. induction Hinfos as [|m0 infos Hm0 _ IH]; simpl.
  - unfold is_terminal in Hm. by rewrite Hm.
  - unfold is_terminal in Hm0. by rewrite Hm0.
Qed.

Lemma event_loop_idle self queue arrivals :
  WindowLayout.timers self = [] →
  WindowLayout.event_loop self queue arrivals = (self, queue ++ concat arrivals).
Proof.
  intros Hidle. revert queue.
  induction arrivals as [|batch arrivals IH]; intros queue; simpl.
  - by rewrite app_nil_r.
  - rewrite Hidle, IH. by rewrite app_assoc.
Qed.

Lemma event_loop_no_terminal self event arrivals :
  WindowLayout.timers self = [(100, event)] →
  Forall (Forall (λ m, is_terminal m = false)) arrivals →
  WindowLayout.event_loop self [] arrivals = (self, []).
Proof.
  intros Htimer. induction 1 as [|batch arrivals Hbatch _ IH]; [reflexivity|].
  simpl. rewrite Htimer, monitor_queue_no_terminal by done.
  destruct self as [s t d g ts]; simpl in *. subst ts. exact IH.
Qed.

Lemma event_loop_first_terminal self event before infos m rest later :
  WindowLayout.timers self = [(100, event)] →
  Forall (Forall (λ m, is_terminal m = false)) before →
  Forall (λ m, is_terminal m = false) infos →
  is_terminal m = true →
  WindowLayout.event_loop self [] (before ++ (infos ++ m :: rest) :: later) =
    (WindowLayout.mk (Some (status m)) (Some (topic m)) (Some (data m))
       (WindowLayout.generated self ++ ["<<" +:+ event +:+ ">>"]) [],
     rest ++ concat later).
Proof.
  intros Htimer Hbefore Hinfos Hm.
  induction Hbefore as [|batch before Hbatch _ IH]; simpl.
  - rewrite Htimer, monitor_queue_first_terminal by done.
    by rewrite event_loop_idle.
  - rewrite Htimer, monitor_queue_no_terminal by done.
    destruct self as [s t d g ts]; simpl in *. subst ts. exact IH.
Qed.

(** C7. One call of [monitor_queue] on a queue without a terminal Message
    drains it, generates no event, leaves the result attributes alone and
    schedules the next call 100 ms later. One call on a queue whose first
    terminal Message is [m] drains the Messages before [m] and [m], stores
    the status, topic and data of [m], generates the event once, leaves what
    follows [m] in the queue and schedules nothing. Over any number of timer
    firings at which no terminal Message has arrived the view stays as it
    was, polling; at the first firing at which one has arrived, the event is
    generated, once, and polling stops. *)
Theorem C7_poller self event :
  (∀ queue,
     Forall (λ m, is_terminal m = false) queue →
     WindowLayout.monitor_queue self queue event =
       (WindowLayout.mk (WindowLayout.process_status self) (WindowLayout.process_topic self)
          (WindowLayout.process_data self) (WindowLayout.generated self)
          (WindowLayout.timers self ++ [(100, event)]), [])) ∧
  (∀ infos m rest,
     Forall (λ m, is_terminal m = false) infos →
     is_terminal m = true →
     WindowLayout.monitor_queue self (infos ++ m :: rest) event =
       (WindowLayout.mk (Some (status m)) (Some (topic m)) (Some (data m))
          (WindowLayout.generated self ++ ["<<" +:+ event +:+ ">>"])
          (WindowLayout.timers self), rest)) ∧
  (∀ arrivals,
     WindowLayout.timers self = [(100, event)] →
     Forall (Forall (λ m, is_terminal m = false)) arrivals →
     WindowLayout.event_loop self [] arrivals = (self, [])) ∧
  (∀ before infos m rest later,
     WindowLayout.timers self = [(100, event)] →
     Forall (Forall (λ m, is_terminal m = false)) before →
     Forall (λ m, is_terminal m = false) infos →
     is_terminal m = true →
     WindowLayout.event_loop self [] (before ++ (infos ++ m :: rest) :: later) =
       (WindowLayout.mk (Some (status m)) (Some (topic m)) (Some (data m))
          (WindowLayout.generated self ++ ["<<" +:+ event +:+ ">>"]) [],
        rest ++ concat later)).
Proof.
  split; [|split; [|split]].
  - intros queue. apply monitor_queue_no_terminal.
  - intros infos m rest. apply monitor_queue_first_terminal.
  - intros arrivals Htimer. by apply (event_loop_no_terminal self event).
  - intros before infos m rest later Htimer. by apply event_loop_first_terminal.
Qed.

Lemma C7_poller_witness :
  WindowLayout.event_loop Examples.polling []
    ([[Examples.info]; []; [Examples.info]; []; []] ++
     ([Examples.info] ++ Examples.success :: []) :: []) =
  (WindowLayout.mk (Some "success") (Some (PStr "Success")) (Some (PStr "OK"))
     ["<<arduino_cli>>"] [], []).
Proof.
  apply (proj2 (proj2 (proj2 (C7_poller Examples.polling "arduino_cli")))
           [[Examples.info]; []; [Examples.info]; []; []]
           [Examples.info] Examples.success [] []).
  - reflexivity.
  - repeat constructor.
  - repeat constructor.
  - reflexivity.
Defined.

(** * More properties *)

From stdpp Require Import sorting.

#[local] Open Scope Z_scope.

(** ** Version tags *)

Section versions.
Import GitClient.

Lemma digit_runs_sound s m rest :
  (m, rest) ∈ Re.digit_runs s →
  s = m +:+ rest ∧ m ≠ EmptyString ∧
  Forall (λ c, Re.is_digit c = true) (String.list_ascii_of_string m).
Proof.
  revert m rest. induction s as [|c s IH]; intros m rest; cbn [Re.digit_runs].
  - by intros ?%elem_of_nil.
  - destruct (Re.is_digit c) eqn:Hc; [|by intros ?%elem_of_nil].
    rewrite elem_of_app, list_elem_of_fmap, list_elem_of_singleton.
    intros [([m' rest'] & Heq & Hin) | Heq]; simplify_eq/=.
    + destruct (IH _ _ Hin) as (-> & _ & Hall). repeat split; [done|]. by constructor.
    + repeat split; [done|]. by repeat constructor.
Qed.

Lemma matches_seq r1 r2 s :
  Re.matches (Re.Seq r1 r2) s =
    (Re.matches r1 s ≫= λ '(m1, rest1, g1),
       Re.matches r2 rest1 ≫= λ '(m2, rest2, g2), [(m1 +:+ m2, rest2, g1 ++ g2)]).
Proof. reflexivity. Qed.

Lemma string_app_assoc (a b c : string) : (a +:+ b) +:+ c = a +:+ (b +:+ c).
Proof.
  induction a as [|x a IH]; [done|].
  change (String x ((a +:+ b) +:+ c) = String x (a +:+ (b +:+ c))). by rewrite IH.
Qed.

Lemma matches_sound r : ∀ s m rest g,
  (m, rest, g) ∈ Re.matches r s → s = m +:+ rest ∧ Re.denotes r m g.
Proof.
  induction r as [|c| |r1 IH1 r2 IH2|r1 IH1 r2 IH2|r IH]; intros s m rest g.
  - simpl. intros Heq%list_elem_of_singleton. simplify_eq. split; [done|constructor].
  - simpl. destruct s as [|c' s]; [by intros ?%elem_of_nil|].
    case_decide; [|by intros ?%elem_of_nil].
    intros Heq%list_elem_of_singleton. simplify_eq. split; [done|constructor].
  - cbn [Re.matches]. rewrite list_elem_of_fmap. intros ([m' rest'] & Heq & Hin). simplify_eq.
    destruct (digit_runs_sound _ _ _ Hin) as (-> & Hne & Hall).
    split; [done|by constructor].
  - rewrite matches_seq, list_elem_of_bind. intros ([[m1 rest1] g1] & Hin2 & Hin1).
    apply list_elem_of_bind in Hin2 as ([[m2 rest2] g2] & Heq & Hin2).
    apply list_elem_of_singleton in Heq. simplify_eq.
    destruct (IH1 _ _ _ _ Hin1) as [-> Hd1].
    destruct (IH2 _ _ _ _ Hin2) as [-> Hd2].
    split; [by rewrite string_app_assoc|by constructor].
  - cbn [Re.matches]. rewrite elem_of_app. intros [Hin | Hin].
    + destruct (IH1 _ _ _ _ Hin). split; [done|by constructor].
    + destruct (IH2 _ _ _ _ Hin). split; [done|by apply Re.denotes_alt_r].
  - cbn [Re.matches]. rewrite list_elem_of_fmap. intros ([[m' rest'] g'] & Heq & Hin). simplify_eq.
    destruct (IH _ _ _ _ Hin). split; [done|by constructor].
Qed.

Lemma search_sound r : ∀ s gs,
  Re.search r s = Some gs →
  ∃ pre m rest g, s = pre +:+ m +:+ rest ∧ gs = m :: g ∧ Re.denotes r m g.
Proof.
  induction s as [|c s IH]; intros gs; simpl.
  - destruct (Re.matches r "") as [|[[m rest] g] l] eqn:Hm; [done|].
    intros ?; simplify_eq.
    destruct (matches_sound r "" m rest g) as [Heq Hd]; [rewrite Hm; left|].
    exists "", m, rest, g. done.
  - destruct (Re.matches r (String c s)) as [|[[m rest] g] l] eqn:Hm.
    + intros (pre & m & rest & g & -> & -> & Hd)%IH.
      exists (String c pre), m, rest, g. done.
    + intros ?; simplify_eq.
      destruct (matches_sound r (String c s) m rest g) as [Heq Hd]; [rewrite Hm; left|].
      exists "", m, rest, g. done.
Qed.

Lemma denotes_lits t m g : Re.denotes (Re.lits t) m g → m = t ∧ g = [].
Proof.
  revert m g. induction t as [|c t IH]; intros m g Hd; simpl in Hd.
  - by inversion Hd.
  - inversion Hd as [| | |r1 r2 m1 m2 g1 g2 Hd1 Hd2| | |]; subst.
    inversion Hd1; subst. destruct (IH _ _ Hd2) as [-> ->]. done.
Qed.

Lemma denotes_version_match m g :
  Re.denotes version_match m g →
  ∃ d1 d2 d3 ty,
    m = "v" +:+ d1 +:+ "." +:+ d2 +:+ "." +:+ d3 +:+ "-" +:+ ty ∧
    g = [d1; d2; d3; ty] ∧
    Re.digits d1 ∧ Re.digits d2 ∧ Re.digits d3 ∧ (ty = "Prod" ∨ ty = "Devel").
Proof.
  unfold version_match. intros Hd.
  repeat match goal with
  | H : Re.denotes (Re.Seq _ _) _ _ |- _ => inversion H; clear H; subst
  | H : Re.denotes (Re.Lit _) _ _ |- _ => inversion H; clear H; subst
  | H : Re.denotes (Re.Group _) _ _ |- _ => inversion H; clear H; subst
  | H : Re.denotes Re.Digits _ _ |- _ => inversion H; clear H; subst
  end.
  match goal with
  | H : Re.denotes (Re.Alt _ _) ?m ?g |- _ =>
      assert ((m = "Prod" ∨ m = "Devel") ∧ g = []) as [Hty ->];
        [inversion H as [| | | |r1 r2 m' g' Hl|r1 r2 m' g' Hr|]; subst;
         [apply (denotes_lits "Prod") in Hl as [-> ->]
         |apply (denotes_lits "Devel") in Hr as [-> ->]]; auto|]
  end.
  eexists _, _, _, _. split; [reflexivity|]. split; [reflexivity|].
  unfold Re.digits. auto 10.
Qed.

(** Completeness of the matcher on well-formed version strings *)









Lemma key_lt_trans_false a b c :
  key_lt a b = false → key_lt b c = false → key_lt a c = false.
Proof.
  destruct a as [[a1 a2] a3], b as [[b1 b2] b3], c as [[c1 c2] c3].
  unfold key_lt.
  rewrite !orb_false_iff, !andb_false_iff, !orb_false_iff, !andb_false_iff,
    !Z.ltb_ge, !Z.eqb_neq. lia.
Qed.

Lemma key_lt_asym a b : key_lt a b = true → key_lt b a = false.
Proof.
  destruct a as [[a1 a2] a3], b as [[b1 b2] b3]. unfold key_lt.
  rewrite !orb_true_iff, !andb_true_iff, !orb_true_iff, !andb_true_iff,
    !orb_false_iff, !andb_false_iff, !orb_false_iff, !andb_false_iff,
    !Z.ltb_lt, !Z.ltb_ge, !Z.eqb_eq, !Z.eqb_neq. lia.
Qed.

Lemma insert_desc_perm x l : insert_desc x l ≡ₚ x :: l.
Proof.
  induction l as [|y l IH]; cbn [insert_desc]; [done|].
  destruct (key_lt (version_key x) (version_key y)); [|reflexivity].
  rewrite IH. apply Permutation_swap.
Qed.

Lemma insert_desc_sorted x l :
  StronglySorted not_older l → StronglySorted not_older (insert_desc x l).
Proof.
  induction 1 as [|y l Hsorted IH Hall]; cbn [insert_desc]; [by repeat constructor|].
  destruct (key_lt (version_key x) (version_key y)) eqn:Hlt.
  - constructor; [done|]. rewrite insert_desc_perm. constructor; [|done].
    by apply key_lt_asym.
  - constructor; [by constructor|]. constructor; [done|].
    eapply Forall_impl; [done|]. intros z Hz. by eapply key_lt_trans_false.
Qed.

Lemma sorted_reverse_perm l : sorted_reverse l ≡ₚ l.
Proof.
  induction l as [|x l IH]; simpl; [done|]. by rewrite insert_desc_perm, IH.
Qed.

Lemma sorted_reverse_sorted l : StronglySorted not_older (sorted_reverse l).
Proof.
  induction l as [|x l IH]; simpl; [constructor|]. by apply insert_desc_sorted.
Qed.

(** The loop of [get_repo_versions] *)

Lemma search_version_shape s gs :
  Re.search version_match s = Some gs →
  ∃ pre d1 d2 d3 ty post,
    s = pre +:+ ("v" +:+ d1 +:+ "." +:+ d2 +:+ "." +:+ d3 +:+ "-" +:+ ty) +:+ post ∧
    gs = ["v" +:+ d1 +:+ "." +:+ d2 +:+ "." +:+ d3 +:+ "-" +:+ ty; d1; d2; d3; ty] ∧
    Re.digits d1 ∧ Re.digits d2 ∧ Re.digits d3 ∧ (ty = "Prod" ∨ ty = "Devel").
Proof.
  intros (pre & m & rest & g & -> & -> & Hd)%search_sound.
  apply denotes_version_match in Hd as (d1 & d2 & d3 & ty & -> & -> & ?).
  by exists pre, d1, d2, d3, ty, rest.
Qed.

Lemma add_version_unsorted st r :
  add_version st r =
    match numbers_of r with
    | Some n => (dict_set (shorthand r) n st.1, sorted_reverse (dict_set (shorthand r) n st.1))
    | None => st
    end.
Proof. destruct st as [u v]. unfold add_version. by destruct (numbers_of r). Qed.

Lemma fold_add_version_sorted refs st :
  st.2 = sorted_reverse st.1 →
  (fold_left add_version refs st).2 = sorted_reverse (fold_left add_version refs st).1.
Proof.
  revert st. induction refs as [|r refs IH]; intros st Hst; simpl; [done|].
  apply IH. rewrite add_version_unsorted. by destruct (numbers_of r).
Qed.

Lemma dict_set_keys {V} k (v : V) d k' :
  k' ∈ (dict_set k v d).*1 ↔ k' = k ∨ k' ∈ d.*1.
Proof.
  induction d as [|[k0 v0] d IH]; simpl.
  - rewrite list_elem_of_singleton, elem_of_nil. naive_solver.
  - case_decide as Hk; subst; simpl; rewrite !elem_of_cons; [naive_solver|].
    rewrite IH. naive_solver.
Qed.

Lemma dict_set_NoDup {V} k (v : V) d : NoDup d.*1 → NoDup (dict_set k v d).*1.
Proof.
  induction d as [|[k0 v0] d IH]; simpl; [intros _; apply NoDup_singleton|].
  intros [Hk0 Hd]%NoDup_cons. case_decide as Hk; subst; simpl.
  - by constructor.
  - constructor; [|by apply IH]. rewrite dict_set_keys. naive_solver.
Qed.

Lemma dict_set_items {V} k (v : V) d k' v' :
  (k', v') ∈ dict_set k v d → (k' = k ∧ v' = v) ∨ (k', v') ∈ d.
Proof.
  induction d as [|[k0 v0] d IH]; simpl.
  - intros [= -> ->]%list_elem_of_singleton. auto.
  - case_decide as Hk; subst; rewrite !elem_of_cons; naive_solver.
Qed.

Lemma unsorted_spec refs :
  NoDup (fold_left add_version refs ([], [])).1.*1 ∧
  (∀ k, k ∈ (fold_left add_version refs ([], [])).1.*1 ↔
        ∃ r, r ∈ refs ∧ shorthand r = k ∧ is_Some (numbers_of r)) ∧
  (∀ k n, (k, n) ∈ (fold_left add_version refs ([], [])).1 →
          ∃ r, r ∈ refs ∧ shorthand r = k ∧ numbers_of r = Some n).
Proof.
  induction refs as [|r refs (Hnd & Hkeys & Hitems)] using rev_ind.
  - simpl. split; [constructor|]. split.
    + intros k. rewrite elem_of_nil. split; [done|]. by intros (r & ?%elem_of_nil & _).
    + by intros k n ?%elem_of_nil.
  - rewrite fold_left_app. simpl. rewrite add_version_unsorted.
    destruct (numbers_of r) as [n|] eqn:Hn; simpl.
    + split; [by apply dict_set_NoDup|]. split.
      * intros k. rewrite dict_set_keys, Hkeys. setoid_rewrite elem_of_app.
        setoid_rewrite list_elem_of_singleton. split.
        -- intros [-> | (r' & ? & ? & ?)]; [exists r; rewrite Hn; eauto|eauto].
        -- intros (r' & [?| ->] & ? & ?); [right; eauto|by left].
      * intros k n' [[-> ->] | Hin]%dict_set_items.
        -- exists r. rewrite elem_of_app, list_elem_of_singleton. auto.
        -- destruct (Hitems _ _ Hin) as (r' & ? & ? & ?). exists r'.
           rewrite elem_of_app. auto.
    + split; [done|]. split.
      * intros k. rewrite Hkeys. setoid_rewrite elem_of_app.
        setoid_rewrite list_elem_of_singleton. split; [naive_solver|].
        intros (r' & [?| ->] & ? & Hsome); [eauto|].
        rewrite Hn in Hsome. by destruct Hsome.
      * intros k n' Hin. destruct (Hitems _ _ Hin) as (r' & ? & ? & ?). exists r'.
        rewrite elem_of_app. auto.
Qed.

Lemma get_repo_versions_perm refs :
  get_repo_versions refs ≡ₚ (fold_left add_version refs ([], [])).1.
Proof.
  unfold get_repo_versions. rewrite fold_add_version_sorted by done.
  apply sorted_reverse_perm.
Qed.

Lemma numbers_of_spec r n :
  numbers_of r = Some n →
  extract_version_details (shorthand r) =
    PTuple [PInt (major n); PInt (minor n); PInt (patch n)] ∧
  (type n = "Prod" ∨ type n = "Devel") ∧ ref n = name r.
Proof.
  unfold numbers_of, extract_version_details.
  destruct (Re.search version_match (shorthand r)) as [gs|] eqn:Hs; [|done].
  destruct (search_version_shape _ _ Hs) as (pre & d1 & d2 & d3 & ty & post & _ & -> & _ & _ & _ & Hty).
  intros [= <-]. done.
Qed.

Lemma numbers_of_is_Some r :
  is_Some (numbers_of r) ↔
  extract_version_details (shorthand r) ≠ PTuple [PNone; PNone; PNone].
Proof.
  unfold numbers_of, extract_version_details.
  destruct (Re.search version_match (shorthand r)) as [gs|] eqn:Hs.
  - destruct (search_version_shape _ _ Hs) as (pre & d1 & d2 & d3 & ty & post & _ & -> & _).
    split; [done|]. by eexists.
  - split; [by intros [? ?]|done].
Qed.

Lemma first_of_type_spec ty l :
  StronglySorted not_older l →
  match first_of_type ty l with
  | Some (version, r) =>
      ∃ n, (version, n) ∈ l ∧ type n = ty ∧ ref n = r ∧
           ∀ v' n', (v', n') ∈ l → type n' = ty → not_older (version, n) (v', n')
  | None => ∀ v' n', (v', n') ∈ l → type n' ≠ ty
  end.
Proof.
  induction 1 as [|[v n] l Hsorted IH Hall]; simpl.
  - by intros v' n' ?%elem_of_nil.
  - case_decide as Hty.
    + exists n. split; [left|]. split; [done|]. split; [done|].
      intros v' n' [[= -> ->] | Hin]%elem_of_cons _.
      * unfold not_older. destruct (version_key (v, n)) as [[a b] c]. unfold key_lt.
        by rewrite !Z.ltb_irrefl, !andb_false_r.
      * by eapply Forall_forall in Hall.
    + destruct (first_of_type ty l) as [[version r]|].
      * destruct IH as (n0 & Hin & ? & ? & Hmax). exists n0.
        split; [by right|]. split; [done|]. split; [done|].
        intros v' n' [[= -> ->] | Hin']%elem_of_cons Hty'; [done|]. by apply Hmax.
      * intros v' n' [[= -> ->] | Hin']%elem_of_cons; [done|]. by eapply IH.
Qed.




Lemma get_repo_versions_descending refs :
  StronglySorted not_older (get_repo_versions refs).
Proof.
  unfold get_repo_versions. rewrite fold_add_version_sorted by done.
  apply sorted_reverse_sorted.
Qed.

(** X3. The dict that [get_repo_versions] returns is in descending order of
    (major, minor, patch): no item has a smaller key than an item after it. *)
Theorem X3_get_repo_versions_sorted refs :
  StronglySorted not_older (get_repo_versions refs).
Proof. apply get_repo_versions_descending. Qed.

(** X4. The keys of the dict that [get_repo_versions] returns are, without
    repetition, the shorthands of the references that hold a version. Each
    item carries the numbers [extract_version_details] reads from its key, a
    type that is Prod or Devel, and the name of a reference with that
    shorthand. *)
Theorem X4_get_repo_versions_items refs :
  NoDup (get_repo_versions refs).*1 ∧
  (∀ k, k ∈ (get_repo_versions refs).*1 ↔
        ∃ r, r ∈ refs ∧ shorthand r = k ∧
             extract_version_details k ≠ PTuple [PNone; PNone; PNone]) ∧
  (∀ k n, (k, n) ∈ get_repo_versions refs →
     extract_version_details k = PTuple [PInt (major n); PInt (minor n); PInt (patch n)] ∧
     (type n = "Prod" ∨ type n = "Devel") ∧
     ∃ r, r ∈ refs ∧ shorthand r = k ∧ name r = ref n).
Proof.
  destruct (unsorted_spec refs) as (Hnd & Hkeys & Hitems).
  pose proof (get_repo_versions_perm refs) as Hperm.
  split; [by rewrite Hperm|]. split.
  - intros k. rewrite Hperm, Hkeys. split.
    + intros (r & ? & <- & ?%numbers_of_is_Some). eauto.
    + intros (r & ? & <- & ?%numbers_of_is_Some). eauto.
  - intros k n. rewrite Hperm. intros (r & ? & <- & Hn)%Hitems.
    destruct (numbers_of_spec _ _ Hn) as (? & ? & ?). eauto 10.
Qed.

(** X5. [get_latest_prod] returns the key and the ref of a Prod item of the
    versions whose (major, minor, patch) is not less than that of any other
    Prod item, and None exactly when the versions hold no Prod item;
    [get_latest_devel] does the same for Devel. Neither reads [tag_name]. *)
Theorem X5_get_latest_greatest refs tag_name :
  match get_latest_prod refs tag_name with
  | Some (version, r) =>
      ∃ n, (version, n) ∈ get_repo_versions refs ∧ type n = "Prod" ∧ ref n = r ∧
           ∀ v' n', (v', n') ∈ get_repo_versions refs → type n' = "Prod" →
                    not_older (version, n) (v', n')
  | None => ∀ v' n', (v', n') ∈ get_repo_versions refs → type n' ≠ "Prod"
  end ∧
  match get_latest_devel refs tag_name with
  | Some (version, r) =>
      ∃ n, (version, n) ∈ get_repo_versions refs ∧ type n = "Devel" ∧ ref n = r ∧
           ∀ v' n', (v', n') ∈ get_repo_versions refs → type n' = "Devel" →
                    not_older (version, n) (v', n')
  | None => ∀ v' n', (v', n') ∈ get_repo_versions refs → type n' ≠ "Devel"
  end.
Proof.
  split; apply first_of_type_spec, get_repo_versions_descending.
Qed.

End versions.

(** ** Starting and stopping a process *)

Section process.
Import Process.

Lemma widget_nested_ind (P : widget → Prop) :
  (∀ ident is_input children,
     Forall P children → P (Widget ident is_input children)) →
  ∀ w, P w.
Proof.
  intros Hstep. fix IH 1. intros [ident is_input children]. apply Hstep.
  exact ((fix each (cs : list widget) : Forall P cs :=
            match cs with
            | [] => List.Forall_nil P
            | c :: cs' => @List.Forall_cons _ P c cs' (IH c) (each cs')
            end) children).
Qed.

Lemma disable_input_states_visits (w : widget) : ∀ self,
  disable_input_states w self = fold_left visit (inputs w) self.
Proof.
  induction w as [ident is_input children IH] using widget_nested_ind.
  cbn [disable_input_states inputs].
  induction IH as [|[ident' is_input' grand] children IHchild _ IHc]; intros self.
  - reflexivity.
  - rewrite !fold_left_app, <- IHc, <- IHchild. by destruct is_input'.
Qed.

Lemma fold_visit_fields ids : ∀ self,
  layout (fold_left visit ids self) = layout self ∧
  process_phase (fold_left visit ids self) = process_phase self ∧
  process_running (fold_left visit ids self) = process_running self ∧
  status_label (fold_left visit ids self) = status_label self ∧
  progress_bar (fold_left visit ids self) = progress_bar self ∧
  log_button (fold_left visit ids self) = log_button self.
Proof.
  induction ids as [|i ids IH]; intros self; simpl; [done|].
  destruct (IH (visit self i)) as (-> & -> & -> & -> & -> & ->). done.
Qed.

Lemma fold_visit_states ids : ∀ self ident,
  states (fold_left visit ids self) ident =
    if decide (ident ∈ ids) then "disabled" else states self ident.
Proof.
  induction ids as [|i ids IH]; intros self ident; cbn [fold_left].
  - by destruct (decide (ident ∈ [])) as [?%elem_of_nil|].
  - rewrite IH. cbn [visit states].
    destruct (decide (ident ∈ ids)) as [Hin|Hin],
             (decide (ident ∈ i :: ids)) as [Hin'|Hin']; try done.
    + exfalso. apply Hin'. by right.
    + apply elem_of_cons in Hin' as [->|?]; [|done]. by rewrite fn_lookup_insert.
    + rewrite fn_lookup_insert_ne; [done|]. intros ->. apply Hin'. left.
Qed.

Lemma fold_visit_widget_states ids : ∀ self,
  NoDup ids →
  widget_states (fold_left visit ids self) =
    widget_states self ++ ((λ i, (i, states self i)) <$> ids).
Proof.
  induction ids as [|i ids IH]; intros self; simpl.
  - by rewrite app_nil_r.
  - intros [Hi Hids]%NoDup_cons. rewrite IH by done. simpl.
    rewrite <- app_assoc. simpl. do 2 f_equal.
    apply list_fmap_ext. intros _ j Hj%list_elem_of_lookup_2.
    rewrite fn_lookup_insert_ne; [done|]. by intros ->.
Qed.

Lemma restore_last (recorded : list (nat * string)) : ∀ (st : nat → string) ident v,
  ident ∈ recorded.*1 →
  (∀ v', (ident, v') ∈ recorded → v' = v) →
  fold_left (λ st w, <[w.1 := w.2]> st) recorded st ident = v.
Proof.
  induction recorded as [|[j x] recorded IH] using rev_ind; intros st ident v.
  - by intros ?%elem_of_nil.
  - rewrite fmap_app, elem_of_app, fold_left_app. simpl.
    rewrite list_elem_of_singleton. intros Hin Hval.
    destruct (decide (j = ident)) as [->|Hne].
    + rewrite fn_lookup_insert. apply Hval. rewrite elem_of_app, list_elem_of_singleton. auto.
    + rewrite fn_lookup_insert_ne by done. apply IH; [naive_solver|].
      intros v' Hv'. apply Hval. rewrite elem_of_app. auto.
Qed.

Lemma restore_other (recorded : list (nat * string)) : ∀ (st : nat → string) ident,
  ident ∉ recorded.*1 →
  fold_left (λ st w, <[w.1 := w.2]> st) recorded st ident = st ident.
Proof.
  induction recorded as [|[j x] recorded IH]; intros st ident; simpl; [done|].
  rewrite not_elem_of_cons. intros [Hne Hnot]. rewrite IH by done.
  by rewrite fn_lookup_insert_ne.
Qed.

Lemma process_start_running self tree queue next_phase activity event :
  process_running self = false →
  NoDup (inputs tree) →
  process_running (process_start self tree queue next_phase activity event).1 = true ∧
  widget_states (process_start self tree queue next_phase activity event).1 =
    widget_states self ++ ((λ i, (i, states self i)) <$> inputs tree) ∧
  ∀ ident,
    states (process_start self tree queue next_phase activity event).1 ident =
      if decide (ident ∈ inputs tree) then "disabled" else states self ident.
Proof.
  intros Hidle Hnd. unfold process_start. rewrite Hidle. cbn [negb].
  rewrite disable_input_states_visits. cbn [layout process_running widget_states states].
  destruct (fold_visit_fields (inputs tree) self) as (-> & _).
  destruct (WindowLayout.monitor_queue (layout self) queue event) as [layout' queue'].
  cbn. split; [done|]. split; [by apply fold_visit_widget_states|].
  intros ident. apply fold_visit_states.
Qed.

Lemma stop_running_states self ident :
  process_running self = true →
  states (stop_running self) ident =
    fold_left (λ st w, <[w.1 := w.2]> st) (widget_states self) (states self) ident.
Proof. intros Hrun. unfold stop_running. by rewrite Hrun. Qed.

Lemma restored self s1 ids tree_states ident :
  widget_states s1 = widget_states self ++ ((λ i, (i, tree_states i)) <$> ids) →
  process_running s1 = true →
  ident ∈ ids →
  states (stop_running s1) ident = tree_states ident.
Proof.
  intros Hws Hrun Hin. rewrite stop_running_states by done. rewrite Hws.
  rewrite fold_left_app. apply restore_last.
  - rewrite <- list_fmap_compose. by apply (list_elem_of_fmap_2' _ _ ident).
  - intros v' (i & [= -> ->] & _)%list_elem_of_fmap. done.
Qed.

(** X6. A process started on an idle view disables every input widget below
    the view, and stopping it, by [process_stop] or by [process_error], puts
    each of them back in the state it had before the start. A widget that is
    no input of the view and was never recorded keeps its state. The record
    of states is appended to and never cleared. *)
Theorem X6_process_restores_states self tree queue next_phase activity event :
  process_running self = false →
  NoDup (inputs tree) →
  (∀ ident, ident ∈ inputs tree →
     states (process_start self tree queue next_phase activity event).1 ident = "disabled") ∧
  (∀ ident, ident ∈ inputs tree →
     states (process_stop (process_start self tree queue next_phase activity event).1) ident
     = states self ident) ∧
  (∀ ident message, ident ∈ inputs tree →
     states (process_error (process_start self tree queue next_phase activity event).1
               message) ident
     = states self ident) ∧
  (∀ ident, ident ∉ inputs tree → ident ∉ (widget_states self).*1 →
     states (process_stop (process_start self tree queue next_phase activity event).1) ident
     = states self ident) ∧
  widget_states (process_stop (process_start self tree queue next_phase activity event).1)
  = widget_states self ++ ((λ i, (i, states self i)) <$> inputs tree).
Proof.
  intros Hidle Hnd.
  destruct (process_start_running self tree queue next_phase activity event Hidle Hnd)
    as (Hrun & Hws & Hst).
  set (started := (process_start self tree queue next_phase activity event).1) in *.
  split; [|split; [|split; [|split]]].
  - intros ident Hin. rewrite Hst. by rewrite decide_True.
  - intros ident Hin. by apply (restored self started (inputs tree) (states self)).
  - intros ident message Hin.
    by apply (restored self started (inputs tree) (states self)).
  - intros ident Hout Hnew.
    change (states (process_stop started) ident) with (states (stop_running started) ident).
    rewrite stop_running_states by done. rewrite restore_other.
    + rewrite Hst. by rewrite decide_False.
    + rewrite Hws, fmap_app, <- list_fmap_compose, elem_of_app.
      intros [?|Hin]; [done|]. apply Hout.
      by apply list_elem_of_fmap in Hin as (i & -> & ?).
  - change (widget_states (process_stop started)) with (widget_states (stop_running started)).
    unfold stop_running. by rewrite Hrun.
Qed.

Lemma X6_process_restores_states_witness :
  states (process_stop (process_start Samples.view Samples.tree [] "refresh_list"
                          "Scanning for attached devices" "List_Devices").1) 3%nat
  = "readonly".
Proof.
  refine (proj1 (proj2 (X6_process_restores_states Samples.view Samples.tree []
                          "refresh_list" "Scanning for attached devices" "List_Devices"
                          eq_refl _)) 3%nat _).
  - cbn. apply NoDup_cons. split; [|apply NoDup_singleton].
    rewrite list_elem_of_singleton. discriminate.
  - cbn. right. left.
Defined.

(** X7. Starting a further phase while a process runs records nothing and
    changes no widget state, whatever the view looks like by then; so the
    stop that ends the chain of phases still restores the states from before
    the first start. *)
Theorem X7_process_start_while_running
    self tree queue next_phase activity event tree2 queue2 next_phase2 activity2 event2 :
  process_running self = false →
  NoDup (inputs tree) →
  widget_states
    (process_start (process_start self tree queue next_phase activity event).1
       tree2 queue2 next_phase2 activity2 event2).1
  = widget_states (process_start self tree queue next_phase activity event).1 ∧
  states
    (process_start (process_start self tree queue next_phase activity event).1
       tree2 queue2 next_phase2 activity2 event2).1
  = states (process_start self tree queue next_phase activity event).1 ∧
  process_phase
    (process_start (process_start self tree queue next_phase activity event).1
       tree2 queue2 next_phase2 activity2 event2).1
  = Some next_phase2 ∧
  ∀ ident, ident ∈ inputs tree →
    states
      (process_stop
         (process_start (process_start self tree queue next_phase activity event).1
            tree2 queue2 next_phase2 activity2 event2).1) ident
    = states self ident.
Proof.
  intros Hidle Hnd.
  destruct (process_start_running self tree queue next_phase activity event Hidle Hnd)
    as (Hrun & Hws & Hst).
  set (started := (process_start self tree queue next_phase activity event).1) in *.
  assert (Hagain :
    widget_states (process_start started tree2 queue2 next_phase2 activity2 event2).1
      = widget_states started ∧
    states (process_start started tree2 queue2 next_phase2 activity2 event2).1
      = states started ∧
    process_phase (process_start started tree2 queue2 next_phase2 activity2 event2).1
      = Some next_phase2 ∧
    process_running (process_start started tree2 queue2 next_phase2 activity2 event2).1
      = true).
  { unfold process_start at 1 2 3 4. rewrite Hrun. cbn [negb].
    by destruct (WindowLayout.monitor_queue (layout started) queue2 event2). }
  destruct Hagain as (Hws2 & Hst2 & Hph2 & Hrun2).
  split; [done|]. split; [done|]. split; [done|].
  intros ident Hin.
  apply (restored self _ (inputs tree) (states self)); [|done|done].
  by rewrite Hws2.
Qed.

Lemma X7_process_start_while_running_witness :
  states
    (process_stop
       (process_start
          (process_start Samples.view Samples.tree [] "clone_repo" "Clone repository"
             "Setup_Local_Repo").1
          Samples.tree [] "pull_latest" "Get latest software updates"
          "Setup_Local_Repo").1) 3%nat
  = "readonly".
Proof.
  refine (proj2 (proj2 (proj2
    (X7_process_start_while_running Samples.view Samples.tree [] "clone_repo"
       "Clone repository" "Setup_Local_Repo" Samples.tree [] "pull_latest"
       "Get latest software updates" "Setup_Local_Repo" eq_refl _))) 3%nat _).
  - cbn. apply NoDup_cons. split; [|apply NoDup_singleton].
    rewrite list_elem_of_singleton. discriminate.
  - cbn. right. left.
Defined.

End process.

(** ** Worker threads always finish *)

Lemma cli_trace_alternating repr loads self oc elapsed :
  Progress.alternating None (ThreadedArduinoCLI.run_thread repr loads self oc elapsed).1 ∧
  length (filter (λ e, Progress.is_acquire e = true)
            (ThreadedArduinoCLI.run_thread repr loads self oc elapsed).1) = 1%nat ∧
  ∀ g, holding g (ThreadedArduinoCLI.run_thread repr loads self oc elapsed).1 = false ∧
       calling g (ThreadedArduinoCLI.run_thread repr loads self oc elapsed).1 = false.
Proof.
  destruct oc as [e|rc e|out err rc].
  - rewrite run_thread_popen_raises.
    destruct (exc_is_Exception e), (ThreadedArduinoCLI.timed_out self elapsed);
      (split; [cbn; auto|split; [reflexivity|by intros []]]).
  - rewrite run_thread_communicate_raises.
    destruct (exc_is_Exception e), (ThreadedArduinoCLI.timed_out self elapsed);
      (split; [cbn; auto|split; [reflexivity|by intros []]]).
  - rewrite run_thread_completed.
    destruct (ThreadedArduinoCLI.timed_out self elapsed);
      [|destruct (ThreadedArduinoCLI.classify repr loads err out) as [e|[topic data]]];
      (split; [cbn; auto|split; [reflexivity|by intros []]]).
Qed.

Lemma git_trace_alternating repr self oc :
  Progress.alternating None (ThreadedGitClient.run_thread repr self oc).1 ∧
  length (filter (λ e, Progress.is_acquire e = true)
            (ThreadedGitClient.run_thread repr self oc).1) = 1%nat ∧
  ∀ g, holding g (ThreadedGitClient.run_thread repr self oc).1 = false ∧
       calling g (ThreadedGitClient.run_thread repr self oc).1 = false.
Proof.
  rewrite git_run_thread.
  destruct oc as [output|e]; [|destruct (exc_is_Exception e)];
    (split; [cbn; auto|split; [reflexivity|by intros []]]).
Qed.

(** X8. Every run of a worker, whatever the outside world answers and also
    when an exception leaves the thread, acquires a gate exactly once and
    ends with no gate held and no external call open. *)
Theorem X8_worker_releases_gate tr :
  Scheduler.worker_trace tr →
  length (filter (λ e, Progress.is_acquire e = true) tr) = 1%nat ∧
  ∀ g, holding g tr = false ∧ calling g tr = false.
Proof.
  intros [repr loads self oc elapsed | repr self oc].
  - apply cli_trace_alternating.
  - apply git_trace_alternating.
Qed.

Lemma X8_worker_releases_gate_witness :
  holding arduino_cli_lock
    (ThreadedArduinoCLI.run_thread Examples.repr Examples.loads (Examples.acli 300)
       (ThreadedArduinoCLI.Completed [] (Examples.b "not json") 1)
       Examples.half_second).1 = false.
Proof.
  apply (proj2 (X8_worker_releases_gate _
                  (Scheduler.cli_trace Examples.repr Examples.loads (Examples.acli 300)
                     (ThreadedArduinoCLI.Completed [] (Examples.b "not json") 1)
                     Examples.half_second)) arduino_cli_lock).
Defined.














(** ** Classification of the streams *)

Lemma py_contains_Some k (d : gmap string pyval) v :
  d !! k = Some v → py_contains k (PDict d) = inr true.
Proof. intros H. cbn. by rewrite H, bool_decide_eq_true_2 by (by eexists). Qed.

Lemma py_contains_None k (d : gmap string pyval) :
  d !! k = None → py_contains k (PDict d) = inr false.
Proof. intros H. cbn. by rewrite H, bool_decide_eq_false_2 by (by intros [? ?]). Qed.

Lemma py_getitem_Some k (d : gmap string pyval) v :
  d !! k = Some v → py_getitem (PDict d) k = inr v.
Proof. intros H. cbn. by rewrite H. Qed.

Ltac lookups :=
  repeat match goal with
  | H : ?d !! ?k = Some _ |- context [py_contains ?k (PDict ?d)] =>
      rewrite (py_contains_Some k d _ H)
  | H : ?d !! ?k = None |- context [py_contains ?k (PDict ?d)] =>
      rewrite (py_contains_None k d H)
  | H : ?d !! ?k = Some _ |- context [py_getitem (PDict ?d) ?k] =>
      rewrite (py_getitem_Some k d _ H)
  end.


Lemma classify_error_dict_ok repr (d : gmap string pyval) :
  (∀ x, d !! "output" = Some x → ∃ o, x = PDict o) →
  (∀ o v, d !! "output" = Some (PDict o) → o !! "stdout" = Some v → ∃ s, v = PStr s) →
  ∃ data,
    ThreadedArduinoCLI.classify_error repr (PDict d) =
      inr (PStr (from_option (py_str repr) "Error in compile or upload" (d !! "error")),
           data) ∧
    data ≠ PStr "".
Proof.
  intros Hshape Hstr. unfold ThreadedArduinoCLI.classify_error.
  destruct (d !! "error") as [err|] eqn:Herr;
  (destruct (d !! "output") as [x|] eqn:Hout;
       [destruct (Hshape x eq_refl) as [o ->];
        destruct (o !! "stdout") as [so|] eqn:Hso;
          [destruct (Hstr o so eq_refl Hso) as [s ->]|];
        destruct (o !! "stderr") as [se|] eqn:Hse|]).
  all: lookups; cbn [mbind exc_bind mret exc_ret from_option].
  all: lookups; cbn [mbind exc_bind mret exc_ret from_option].
  all: lookups; cbn [mbind exc_bind mret exc_ret from_option].
  all: lookups; cbn [mbind exc_bind mret exc_ret from_option].
  all: try destruct s as [|c s]; try destruct (py_ne_empty se).
  all: cbn [py_ne_empty py_add_str mbind exc_bind mret exc_ret].
  all: eexists; (split; [reflexivity|]); case_bool_decide; congruence.
Qed.

Lemma classify_error_dict_raises repr (d o : gmap string pyval) v :
  d !! "output" = Some (PDict o) → o !! "stdout" = Some v →
  (∀ s, v ≠ PStr s) →
  ∃ e, ThreadedArduinoCLI.classify_error repr (PDict d) = inl e ∧
       exc_type e = "TypeError".
Proof.
  intros Hout Hso Hv. unfold ThreadedArduinoCLI.classify_error.
  destruct (d !! "error") as [err|] eqn:Herr.
  all: lookups; cbn [mbind exc_bind mret exc_ret from_option].
  all: lookups; cbn [mbind exc_bind mret exc_ret from_option].
  all: lookups; cbn [mbind exc_bind mret exc_ret from_option].
  all: destruct v; try (by destruct (Hv s)); cbn; eexists; split; reflexivity.
Qed.

(** X11. On an error payload that is a dict whose "output", when present, is
    a dict, the classification of the error stream raises when the embedded
    "stdout" is present and is not a str (TypeError) and only then. When it
    does not raise, the topic is str() of the "error" field, or "Error in
    compile or upload" without one, and the data is never the empty str: when
    no text was gathered the data is the payload itself. *)
Theorem X11_classify_error_dict repr (d : gmap string pyval) :
  (∀ x, d !! "output" = Some x → ∃ o, x = PDict o) →
  ((∀ o v, d !! "output" = Some (PDict o) → o !! "stdout" = Some v → ∃ s, v = PStr s) →
   ∃ data,
     ThreadedArduinoCLI.classify_error repr (PDict d) =
       inr (PStr (from_option (py_str repr) "Error in compile or upload" (d !! "error")),
            data) ∧
     data ≠ PStr "") ∧
  (∀ o v, d !! "output" = Some (PDict o) → o !! "stdout" = Some v →
          (∀ s, v ≠ PStr s) →
   ∃ e, ThreadedArduinoCLI.classify_error repr (PDict d) = inl e ∧
        exc_type e = "TypeError").
Proof.
  intros Hshape. split.
  - by apply classify_error_dict_ok.
  - intros o v. apply classify_error_dict_raises.
Qed.

Lemma X11_classify_error_dict_witness :
  ∃ data,
    ThreadedArduinoCLI.classify_error Examples.repr Examples.bad_board =
      inr (PStr "bad board", data) ∧ data ≠ PStr "".
Proof.
  refine (proj1 (X11_classify_error_dict Examples.repr
                   (<["error" := PStr "bad board"]>
                    (<["output" := PDict (<["stderr" := PStr "detail"]> ∅)]> ∅)) _) _).
  - intros x Hx. vm_compute in Hx. injection Hx as <-. by eexists.
  - intros o v Ho Hv. vm_compute in Ho. injection Ho as <-. vm_compute in Hv. discriminate.
Defined.

Lemma existsb_is_str_none k (l : list pyval) :
  Forall (λ x, ∀ s, x ≠ PStr s) l → existsb (is_str k) l = false.
Proof.
  induction 1 as [|x l Hx _ IH]; [done|]. simpl. rewrite IH.
  destruct x; try done. by destruct (Hx s).
Qed.

(** X12. A run whose subprocess ends within the time limit with an empty
    error stream and an output that decodes to a dict without a "success"
    key, or to a list with no str among its items (a board list, a platform
    list), puts exactly one terminal Message; its topic is "Success", its
    data is the "stdout" field of the dict if it has one and the decoded
    value otherwise, and its status follows the exit code. *)
Theorem X12_run_plain_output repr loads self out rc elapsed details :
  ThreadedArduinoCLI.timed_out self elapsed = false →
  bytes_truthy out = true →
  loads out = inr details →
  (∃ d, details = PDict d ∧ d !! "success" = None) ∨
  (∃ l, details = PList l ∧ Forall (λ x, ∀ s, x ≠ PStr s) l) →
  ThreadedArduinoCLI.run_thread repr loads self
    (ThreadedArduinoCLI.Completed out [] rc) elapsed =
  ([Put (ThreadedArduinoCLI.info_message repr self);
    Acquire arduino_cli_lock;
    CallBegin arduino_cli_lock; CallEnd arduino_cli_lock;
    Put (mkQueueMessage (if bool_decide (rc = 0) then "success" else "error")
           (PStr "Success")
           match details with
           | PDict d => default details (d !! "stdout")
           | _ => details
           end);
    Release arduino_cli_lock], None).
Proof.
  intros Hlimit Hout Hloads Hshape.
  rewrite run_thread_completed, Hlimit.
  unfold ThreadedArduinoCLI.classify. cbn [bytes_truthy]. rewrite Hout, Hloads.
  cbn [mbind exc_bind]. unfold ThreadedArduinoCLI.classify_output.
  destruct Hshape as [(d & -> & Hsuccess) | (l & -> & Hl)].
  - lookups. cbn [mbind exc_bind mret exc_ret].
    destruct (d !! "stdout") as [v|] eqn:Hstdout; lookups; reflexivity.
  - cbn [py_contains mbind exc_bind mret exc_ret].
    by rewrite !existsb_is_str_none.
Qed.

Lemma X12_run_plain_output_witness :
  terminal_puts
    (ThreadedArduinoCLI.run_thread Examples.repr Samples.loads_boards (Examples.acli 120)
       (ThreadedArduinoCLI.Completed (Examples.b "[]") [] 0) Examples.half_second).1
  = [mkQueueMessage "success" (PStr "Success") Samples.boards].
Proof.
  rewrite (X12_run_plain_output Examples.repr Samples.loads_boards (Examples.acli 120)
             (Examples.b "[]") 0 Examples.half_second Samples.boards).
  - reflexivity.
  - reflexivity.
  - reflexivity.
  - reflexivity.
  - right. eexists. split; [reflexivity|]. repeat constructor. discriminate.
Defined.

(** ** The tasks of ArduinoCLI *)

(** X13. Every method of ArduinoCLI that runs the CLI starts one task on the
    given path whose parameters hold "--format" followed by "jsonmini", so
    that [run] always has JSON to decode: the three queries need the CLI to
    be installed, the others start their task in any case. *)
Theorem X13_tasks_request_jsonmini fs file_path :
  ArduinoCLI.is_installed fs file_path = true →
  ArduinoCLIConfig.starts_json_task file_path (ArduinoCLI.get_version fs file_path) ∧
  ArduinoCLIConfig.starts_json_task file_path (ArduinoCLI.get_platforms fs file_path) ∧
  ArduinoCLIConfig.starts_json_task file_path (ArduinoCLI.get_libraries fs file_path) ∧
  (∀ extra_platforms,
     ArduinoCLIConfig.starts_json_task file_path
       (ArduinoCLIConfig.initialise_config extra_platforms file_path)) ∧
  ArduinoCLIConfig.starts_json_task file_path (ArduinoCLI.update_index file_path) ∧
  (∀ package,
     ArduinoCLIConfig.starts_json_task file_path
       (ArduinoCLI.install_package file_path package)) ∧
  ArduinoCLIConfig.starts_json_task file_path (ArduinoCLI.upgrade_platforms file_path) ∧
  (∀ library,
     ArduinoCLIConfig.starts_json_task file_path
       (ArduinoCLI.install_library file_path library)) ∧
  ArduinoCLIConfig.starts_json_task file_path (ArduinoCLI.list_boards file_path) ∧
  (∀ fqbn port sketch_dir,
     ArduinoCLIConfig.starts_json_task file_path
       (ArduinoCLI.upload_sketch file_path fqbn port sketch_dir)) ∧
  (∀ fqbn sketch_dir,
     ArduinoCLIConfig.starts_json_task file_path
       (ArduinoCLI.compile_sketch file_path fqbn sketch_dir)).
Proof.
  intros Hinstalled.
  unfold ArduinoCLI.get_version, ArduinoCLI.get_platforms, ArduinoCLI.get_libraries.
  rewrite Hinstalled.
  repeat split; intros; unfold ArduinoCLIConfig.starts_json_task.
  - by exists (ThreadedArduinoCLI.mk ["version"; "--format"; "jsonmini"]
                 (file_path :: ["version"; "--format"; "jsonmini"])
                 (Some (Timedelta 0 300 0))), ["version"], [].
  - by eexists _, ["core"; "list"], [].
  - by eexists _, ["lib"; "list"], [].
  - unfold ArduinoCLIConfig.initialise_config. case_bool_decide.
    + by eexists _, ["config"; "init"], _.
    + by eexists _, ["config"; "init"], _.
  - by eexists _, ["core"; "update-index"], [].
  - by eexists _, ["core"; "install"; _], [].
  - by eexists _, ["core"; "upgrade"], [].
  - by eexists _, ["lib"; "install"; _], [].
  - by eexists _, ["board"; "list"], [].
  - unfold ArduinoCLI.upload_sketch. destruct (String.prefix "esp32:esp32" fqbn).
    + by eexists _, ["upload"; "-v"; "-t"; "-b"; _; "-p"; _; _], _.
    + by eexists _, ["upload"; "-v"; "-t"; "-b"; _; "-p"; _; _], _.
  - by eexists _, ["compile"; "-b"; _; _], [].
Qed.

Lemma X13_tasks_request_jsonmini_witness :
  ArduinoCLIConfig.starts_json_task "arduino-cli"
    (ArduinoCLI.get_version Samples.with_cli "arduino-cli").
Proof.
  apply (X13_tasks_request_jsonmini Samples.with_cli "arduino-cli"). reflexivity.
Defined.

(** ** Local changes *)

Section local_changes.
Import LocalChanges.

Lemma filter_iff_in {A} (P Q : A → Prop) `{!∀ x, Decision (P x)} `{!∀ x, Decision (Q x)}
    (l : list A) :
  (∀ x, x ∈ l → P x ↔ Q x) → filter P l = filter Q l.
Proof.
  induction l as [|x l IH]; intros Hl; [done|].
  rewrite !filter_cons.
  assert (P x ↔ Q x) as Hx by (apply Hl; left).
  rewrite IH by (intros y Hy; apply Hl; by right).
  destruct (decide (P x)), (decide (Q x)); tauto || done.
Qed.

Lemma same_key_same_item {V} (l : list (string * V)) x y :
  NoDup l.*1 → x ∈ l → y ∈ l → x.1 = y.1 → x = y.
Proof.
  induction l as [|z l IH]; csimpl; [by intros _ ?%elem_of_nil|].
  intros [Hz Hl]%NoDup_cons [->|Hx]%elem_of_cons [->|Hy]%elem_of_cons Hk; [done| | |by apply IH].
  - exfalso. apply Hz. rewrite Hk. by apply list_elem_of_fmap_2.
  - exfalso. apply Hz. rewrite <- Hk. by apply list_elem_of_fmap_2.
Qed.

Lemma discard_ignored_filter removable status : ∀ tree,
  discard_ignored removable status tree =
    filter (λ item, item.1 ∉ (filter (λ item, discarded removable item = true) status).*1) tree.
Proof.
  unfold discard_ignored.
  induction status as [|[file flag] status IH]; intros tree; cbn [fold_left].
  - induction tree as [|x tree IHt]; [done|]. rewrite filter_cons.
    destruct decide as [_|Hx]; [by rewrite <- IHt|].
    exfalso. apply Hx. apply not_elem_of_nil.
  - rewrite filter_cons.
    destruct (decide (discarded removable (file, flag) = true)) as [Hd|Hd];
      unfold discarded in Hd; cbn [fst snd] in Hd.
    + apply andb_true_iff in Hd as [Hc Hr]. rewrite Hc. unfold os_remove. rewrite Hr.
      rewrite IH. csimpl. rewrite list_filter_filter. apply list_filter_iff.
      intros x. rewrite not_elem_of_cons. tauto.
    + apply not_true_is_false, andb_false_iff in Hd as [Hc|Hr].
      * rewrite Hc. apply IH.
      * unfold os_remove. rewrite Hr. destruct (_ && _); apply IH.
Qed.

Lemma kept_by_key removable tree :
  NoDup tree.*1 →
  filter (λ item, item.1 ∉ (filter (λ item, discarded removable item = true) tree).*1) tree
  = filter (λ item, discarded removable item = false) tree.
Proof.
  intros Hnd. apply filter_iff_in. intros x Hx. split.
  - intros Hk. destruct (discarded removable x) eqn:Hd; [|done].
    exfalso. apply Hk. apply list_elem_of_fmap_2. by apply list_elem_of_filter.
  - intros Hd (y & Hxy & [Hy Hin]%list_elem_of_filter)%list_elem_of_fmap.
    assert (x = y) by (by eapply same_key_same_item). subst. congruence.
Qed.

Lemma describe_each status : ∀ file_list,
  fold_left (λ file_list item, file_list ++ [describe item]) status file_list
  = file_list ++ (describe <$> status).
Proof.
  induction status as [|item status IH]; intros file_list; csimpl.
  - by rewrite app_nil_r.
  - rewrite IH. by rewrite <- app_assoc.
Qed.

(** X14. In a repository, [check_local_changes] returns None exactly when
    nothing is changed. Otherwise it deletes the untracked .DS_Store files
    that can be deleted and lists every other changed file, in the order of
    the status and with the label of its flag: a tree whose only changes are
    such files gives the empty list, not None. *)
Theorem X14_check_local_changes repo_str removable tree :
  NoDup tree.*1 →
  check_local_changes true repo_str removable tree =
    let kept := filter (λ item, discarded removable item = false) tree in
    (if bool_decide (tree = []) then None else Some (describe <$> kept), kept).
Proof.
  intros Hnd. unfold check_local_changes.
  destruct tree as [|item tree]; [done|].
  rewrite bool_decide_true by (simpl; lia).
  rewrite (bool_decide_false (item :: tree = [])) by done.
  rewrite discard_ignored_filter, kept_by_key by done.
  case_bool_decide as Hlen.
  - by rewrite describe_each.
  - destruct (filter _ (item :: tree)); [done|]. simpl in Hlen. lia.
Qed.

Lemma X14_check_local_changes_witness :
  check_local_changes true "repo" (λ _, true) Samples.worktree =
    (Some ["config.h (Modified)"], [("config.h", GIT_STATUS_WT_MODIFIED)]).
Proof.
  rewrite (X14_check_local_changes "repo" (λ _, true) Samples.worktree).
  - reflexivity.
  - apply NoDup_cons. split; [|apply NoDup_singleton].
    intros Hin%list_elem_of_singleton. discriminate.
Defined.

End local_changes.

(** ** Pull *)

Section pull.
Import Pull.







End pull.

(** ** The devices the CLI lists *)

Section select_device.
Import SelectDevice.

Lemma adjust_wrapped fake system (d : gmap string pyval) boards :
  d !! "detected_ports" = Some (PList boards) →
  adjust fake system (PDict d) = inr (PList boards).
Proof.
  intros Hd. unfold adjust. cbn [py_len]. csimpl.
  assert (0 < Z.of_nat (size d)) as Hsize.
  { assert (d ≠ ∅) as Hne by (by intros ->).
    apply map_size_non_empty_iff in Hne. lia. }
  apply Z.ltb_lt in Hsize. rewrite Hsize.
  cbn [py_contains]. rewrite bool_decide_true by (by rewrite Hd). csimpl.
  by rewrite Hd.
Qed.

Lemma adjust_bare fake system boards :
  existsb (is_str "detected_ports") boards = false →
  adjust fake system (PList boards) =
    inr (if bool_decide (boards = []) && py_is_True fake
         then fake_data system else PList boards).
Proof.
  intros Hb. unfold adjust. cbn [py_len py_contains]. csimpl. rewrite Hb.
  destruct boards as [|board boards]; [done|].
  replace (0 <? Z.of_nat (length (board :: boards))) with true
    by (symmetry; apply Z.ltb_lt; simpl; lia).
  csimpl. replace (Z.of_nat (length (board :: boards)) =? 0) with false
    by (symmetry; apply Z.eqb_neq; simpl; lia).
  done.
Qed.

(** X17. Arduino CLI 1.0 wraps the list of ports in a dict under the key
    detected_ports. [list_devices] treats the wrapped list as it treats the
    bare list of the older CLI: the same process data, the same devices, the
    same label and the same exception, whatever else the dict holds. This
    takes a list that is not empty, or [fake] off, and no port that is the
    str "detected_ports" itself. *)
Theorem X17_detected_ports_wrapper fake system (d : gmap string pyval) boards devices :
  d !! "detected_ports" = Some (PList boards) →
  existsb (is_str "detected_ports") boards = false →
  boards ≠ [] ∨ py_is_True fake = false →
  list_devices_success fake system (PDict d) devices =
    list_devices_success fake system (PList boards) devices.
Proof.
  intros Hd Hb Hor. unfold list_devices_success.
  rewrite (adjust_wrapped _ _ _ _ Hd), (adjust_bare _ _ _ Hb).
  destruct Hor as [Hne| ->].
  - by rewrite bool_decide_false.
  - by rewrite andb_false_r.
Qed.

Lemma X17_detected_ports_wrapper_witness :
  list_devices_success (PBool true) "Linux" (PDict Samples.wrapped_ports) [] =
    list_devices_success (PBool true) "Linux" (PList Samples.two_ports) [].
Proof.
  apply (X17_detected_ports_wrapper (PBool true) "Linux" Samples.wrapped_ports
           Samples.two_ports []).
  - reflexivity.
  - reflexivity.
  - left. discriminate.
Defined.

(** X18. With [fake] on, an empty list of ports gets the made-up port, which
    is recorded as one unknown device. The empty list wrapped as Arduino CLI
    1.0 wraps it gets none: no device is recorded and the label says that no
    devices were found. *)
Theorem X18_fake_port_lost_when_wrapped system (d : gmap string pyval) devices :
  d !! "detected_ports" = Some (PList []) →
  let fake_port := PStr (if bool_decide (system = "Windows") then "COM10" else "/dev/ttyUSB10") in
  list_devices_success (PBool true) system (PList []) devices =
    mkListed (fake_data system)
      (devices ++
       [PDict (<["port" := fake_port]>
               {[ "matching_boards" :=
                    PList [PDict (<["name" := PStr "Unknown"]>
                                  {[ "fqbn" := PStr "unknown" ]})] ]})])
      false None ∧
  list_devices_success (PBool true) system (PDict d) devices =
    mkListed (PList []) devices true None.
Proof.
  intros Hd. cbv zeta. split.
  - unfold list_devices_success. rewrite adjust_bare by done.
    rewrite bool_decide_true by done. cbn [andb py_is_True].
    unfold fake_data. by case_bool_decide.
  - unfold list_devices_success. by rewrite (adjust_wrapped _ _ _ _ Hd).
Qed.

Lemma X18_fake_port_lost_when_wrapped_witness :
  detected_devices (list_devices_success (PBool true) "Windows" (PList []) []) =
    [PDict (<["port" := PStr "COM10"]>
            {[ "matching_boards" :=
                 PList [PDict (<["name" := PStr "Unknown"]>
                               {[ "fqbn" := PStr "unknown" ]})] ]})] ∧
  detected_devices (list_devices_success (PBool true) "Windows" (PDict Samples.no_ports) [])
    = [].
Proof.
  destruct (X18_fake_port_lost_when_wrapped "Windows" Samples.no_ports [] eq_refl)
    as [-> ->].
  split; reflexivity.
Defined.

End select_device.
